(** * netdiag-suite: the service health-checking engine

    A shallow embedding of
      - [src/net_diag_tool/modules/services/checker.py]
        (class [ServiceHealthChecker]) and
      - [src/net_diag_tool/core/database.py] (class [DatabaseManager]),
    with the properties of the engine stated and settled on it.

    The class body of [ServiceHealthChecker] holds two generations of the
    same methods: asynchronous ones (lines 55-289), and after them
    synchronous ones of the same names (lines 352-593), which Python binds
    last and which a [ServiceHealthChecker] therefore runs. [Checker] and
    the asynchronous loop of [Monitor] embed the first generation;
    [check_http_service] (one definition) and [check_dns_resolution] (the
    same body twice) are the same in both. [Bound] embeds the second
    generation: the checks, the dispatcher, the loop, the dashboard and
    the uptime of the cache. The body of the loop is also in [Monitor],
    there over any dispatcher. Each definition names the lines it embeds.
    [Setup] and [Wizard] embed the constructor and the step of the
    configuration wizard that adds a service ([main.py]); the status page
    is left out.

    Conventions of the embedding.
      - A Python [dict] with string keys is a [gmap string PyVal]; [d.get(k)],
        [d.get(k, default)] and [d[k]] are [dict_get], [dict_get_default]
        and [dict_item] (the last one raises [KeyError]).
      - A call that may raise returns a [Res]; [try]/[except] clauses match
        on the class of the exception, in the order of the source.
      - Everything the code reads from outside (clock, network, resolver,
        storage faults) is a field of a [World] or [Faults] record, so the
        functions are total and executable.
      - Measured durations are rationals; the uptime ratio is computed with
        binary64 floats, as CPython computes it. *)

From Stdlib Require Import ZArith QArith Qround Floats.
From stdpp Require Import gmap strings list sorting pretty.

Close Scope Q_scope.
Open Scope Z_scope.

(** ** Python values *)

Inductive PyVal :=
| PNone
| PBool (b : bool)
| PInt (z : Z)
| PFloat (q : Q)
| PStr (s : string)
| PStrList (l : list string)
| PDatetime (t : Z).

Global Instance Q_eq_dec : EqDecision Q.
Proof. solve_decision. Defined.

Global Instance PyVal_eq_dec : EqDecision PyVal.
Proof. solve_decision. Defined.

(* A result or service dictionary. *)
Abbreviation Dict := (gmap string PyVal).

Definition Qnonzero (q : Q) : bool := negb (Qnum q =? 0).

(* Truth value of an object, as [if x], [x or y] and [not x] test it. *)
Definition py_truthy (v : PyVal) : bool :=
  match v with
  | PNone => false
  | PBool b => b
  | PInt z => negb (z =? 0)
  | PFloat q => Qnonzero q
  | PStr s => negb (String.eqb s "")
  | PStrList l => match l with [] => false | _ => true end
  | PDatetime _ => true
  end.

(* [a or b] *)
Definition py_or (a b : PyVal) : PyVal := if py_truthy a then a else b.

Definition num_of (v : PyVal) : option Q :=
  match v with
  | PBool b => Some (inject_Z (if b then 1 else 0))
  | PInt z => Some (inject_Z z)
  | PFloat q => Some q
  | _ => None
  end.

(* [a == b] *)
Definition py_eq (a b : PyVal) : bool :=
  match a, b with
  | PNone, PNone => true
  | PStr s, PStr t => String.eqb s t
  | PStrList l, PStrList k => bool_decide (l = k)
  | PDatetime s, PDatetime t => s =? t
  | _, _ =>
      match num_of a, num_of b with
      | Some x, Some y => Qeq_bool x y
      | _, _ => false
      end
  end.

Definition dict_get (d : Dict) (k : string) : PyVal := default PNone (d !! k).

Definition dict_get_default (d : Dict) (k : string) (dflt : PyVal) : PyVal :=
  default dflt (d !! k).

(* [d.update({k1: v1, ...})], the pairs applied left to right. *)
Definition dict_update (d : Dict) (kvs : list (string * PyVal)) : Dict :=
  foldl (fun acc kv => <[kv.1 := kv.2]> acc) d kvs.

(** ** Exceptions *)

Inductive ExcClass :=
| KeyError
| AttributeError
| TimeoutError      (* asyncio.TimeoutError *)
| RequestError      (* httpx.RequestError and its subclasses *)
| JSONDecodeError   (* json.JSONDecodeError *)
| DatabaseError     (* sqlite3.Error and its subclasses *)
| NameError
| TypeError
| OtherException.   (* any other subclass of Exception *)

Global Instance ExcClass_eq_dec : EqDecision ExcClass.
Proof. solve_decision. Defined.

(* [exc_str e] is [str(e)]. *)
Record PyExc := mkExc { exc_class : ExcClass; exc_str : string }.

Global Instance PyExc_eq_dec : EqDecision PyExc.
Proof. solve_decision. Defined.

Inductive Res (A : Type) :=
| Ret (a : A)
| Raise (e : PyExc).
Arguments Ret {A} a.
Arguments Raise {A} e.

Global Instance Res_ret : MRet Res := fun _ a => Ret a.
Global Instance Res_bind : MBind Res := fun _ _ f m =>
  match m with
  | Ret a => f a
  | Raise e => Raise e
  end.

Definition is_Ret {A} (m : Res A) : Prop :=
  match m with Ret _ => True | Raise _ => False end.

(* [d[k]] *)
Definition dict_item (d : Dict) (k : string) : Res PyVal :=
  match d !! k with
  | Some v => Ret v
  | None => Raise (mkExc KeyError ("'" +:+ k +:+ "'"))
  end.

(* [v.startswith(p)]: only [str] has the method. *)
Definition py_startswith (v : PyVal) (p : string) : Res bool :=
  match v with
  | PStr s => Ret (String.prefix p s)
  | _ => Raise (mkExc AttributeError "object has no attribute 'startswith'")
  end.

(* [repr] of a list of [str], as an f-string prints it. *)
Definition repr_str_list (l : list string) : string :=
  "[" +:+ String.concat ", " (map (fun s => "'" +:+ s +:+ "'") l) +:+ "]".

(** ** Measured time *)

(* Round half to even, the rule of Python's [round]. *)
Definition round_half_even (q : Q) : Z :=
  let f := Qfloor q in
  match Qcompare (q - inject_Z f) (1 # 2) with
  | Lt => f
  | Gt => f + 1
  | Eq => if Z.even f then f else f + 1
  end.

(* [round(x, 2)] *)
Definition py_round2 (q : Q) : Q := Qmake (round_half_even (q * 100)) 100.

(** ** The outside world of one check *)

Record Response := mkResponse {
  status_code : Z;
  json : Res string      (* [resp.json()], kept as [str(data)] *)
}.

(* httpx: [is_success] is a 2xx status code. *)
Definition is_success (r : Response) : bool :=
  (200 <=? status_code r) && (status_code r <=? 299).

Record World := mkWorld {
  now : Z;                                  (* datetime.now() *)
  clock_start : Q;                          (* time.time() on entry *)
  clock_end : Q;                            (* time.time() after the I/O *)
  http_get : PyVal -> PyVal -> Res Response;          (* url, timeout *)
  http_request : PyVal -> PyVal -> PyVal -> Res Response; (* method, url, timeout *)
  tcp_open : PyVal -> PyVal -> PyVal -> Res unit;      (* host, port, timeout *)
  tcp_wait_closed : Res unit;
  dns_resolve : PyVal -> Res (list string)             (* domain, 'A' records *)
}.

Definition duration_ms (w : World) : Q := ((clock_end w - clock_start w) * 1000)%Q.

(** ** State and exceptions *)

(* Code that mutates [self] and may raise maps a state to its outcome and
   the state it leaves behind. *)
Definition StateExc (S A : Type) : Type := S -> Res A * S.

Global Instance StateExc_ret {S} : MRet (StateExc S) := fun _ a st => (Ret a, st).
Global Instance StateExc_bind {S} : MBind (StateExc S) := fun _ _ f m st =>
  match m st with
  | (Ret a, st') => f a st'
  | (Raise e, st') => (Raise e, st')
  end.

Definition gets {S A} (g : S -> A) : StateExc S A := fun st => (Ret (g st), st).

Definition modify {S} (g : S -> S) : StateExc S unit := fun st => (Ret tt, g st).

Definition raise {S A} (e : PyExc) : StateExc S A := fun st => (Raise e, st).

Definition lift_res {S A} (r : Res A) : StateExc S A := fun st => (r, st).

(* [try: body finally: fin] *)
Definition try_finally {S A} (body : StateExc S A) (fin : StateExc S unit) : StateExc S A :=
  fun st =>
    let '(r, st') := body st in
    match fin st' with
    | (Ret _, st'') => (r, st'')
    | (Raise e, st'') => (Raise e, st'')
    end.

(** ** The protocol checks, first generation ([checker.py], lines 55-207) *)

Module Checker.

(* [check_http_service] (lines 55-85). *)
Definition check_http_service (w : World) (url timeout expected_status : PyVal) : Dict :=
  let result : Dict :=
    {[ "timestamp" := PDatetime (now w);
       "status" := PStr "down";
       "ssl_valid" := PBool false;
       "error_message" := PNone;
       "response_time_ms" := PInt 0 ]} in
  let attempt : Res Dict :=
    resp ← http_get w url timeout;
    let duration := duration_ms w in
    let matches := py_eq (PInt (status_code resp)) expected_status in
    ssl ← py_startswith url "https";
    let result := dict_update result
      [ ("response_time_ms", PFloat (py_round2 duration));
        ("status_code", PInt (status_code resp));
        ("status", PStr (if matches then "up" else "down"));
        ("ssl_valid", PBool ssl) ] in
    mret (if negb matches
          then <["error_message" := PStr ("Unexpected status: " +:+ pretty (status_code resp))]> result
          else result) in
  match attempt with
  | Ret r => r
  | Raise e =>
      if decide (exc_class e = RequestError)
      then <["error_message" := PStr ("Request Error: " +:+ exc_str e)]> result
      else <["error_message" := PStr (exc_str e)]> result
  end.

(* [check_tcp_service] (lines 87-112). *)
Definition check_tcp_service (w : World) (host port timeout : PyVal) : Dict :=
  let result : Dict :=
    {[ "timestamp" := PDatetime (now w);
       "status" := PStr "down";
       "error_message" := PNone;
       "response_time_ms" := PInt 0 ]} in
  let attempt : Res Dict :=
    _ ← tcp_open w host port timeout;
    let duration := duration_ms w in
    _ ← tcp_wait_closed w;
    mret (<["response_time_ms" := PFloat (py_round2 duration)]>
            (<["status" := PStr "up"]> result)) in
  match attempt with
  | Ret r => r
  | Raise e =>
      if decide (exc_class e = TimeoutError)
      then <["error_message" := PStr "Connection Timeout"]> result
      else <["error_message" := PStr (exc_str e)]> result
  end.

(* [check_dns_resolution] (lines 114-145). [expected_ip] is [None] or a
   [str]. *)
Definition check_dns_resolution (w : World) (domain : PyVal) (expected_ip : option string) : Dict :=
  let result : Dict :=
    {[ "timestamp" := PDatetime (now w);
       "status" := PStr "down";
       "error" := PNone ]} in
  let attempt : Res Dict :=
    ips ← dns_resolve w domain;
    let duration := duration_ms w in
    let mismatch :=
      match expected_ip with
      | Some ip => negb (String.eqb ip "") && negb (bool_decide (ip ∈ ips))
      | None => false
      end in
    let result :=
      if mismatch
      then <["error" := PStr ("IP mismatch. Expected " +:+ default "" expected_ip
                              +:+ ", got " +:+ repr_str_list ips)]> result
      else result in
    mret (dict_update result
      [ ("status", PStr (if mismatch then "down" else "up"));
        ("response_time_ms", PFloat (py_round2 duration));
        ("ips", PStrList ips) ]) in
  match attempt with
  | Ret r => r
  | Raise e => <["error" := PStr (exc_str e)]> result
  end.

(* [check_api_endpoint] (lines 147-177). [expected_response] is accepted
   and never read. *)
Definition check_api_endpoint (w : World) (url method expected_response timeout : PyVal) : Dict :=
  let result : Dict :=
    {[ "timestamp" := PDatetime (now w);
       "status" := PStr "down";
       "error" := PNone ]} in
  match http_request w method url timeout with
  | Ret resp =>
      let duration := duration_ms w in
      if negb (is_success resp)
      then <["error" := PStr ("API Error: " +:+ pretty (status_code resp))]> result
      else
        match json resp with
        | Ret data =>
            dict_update result
              [ ("status", PStr "up");
                ("response_time_ms", PFloat (py_round2 duration));
                ("data_sample", PStr (String.substring 0 100 data)) ]
        | Raise e =>
            if decide (exc_class e = JSONDecodeError)
            then <["error" := PStr "Invalid JSON response"]> result
            else <["error" := PStr (exc_str e)]> result
        end
  | Raise e => <["error" := PStr (exc_str e)]> result
  end.

(* [perform_check] (lines 179-207). *)
Definition perform_check (w : World) (service : Dict) : Res Dict :=
  let stype := dict_get_default service "type" (PStr "http") in
  if py_eq stype (PStr "http") then
    url ← dict_item service "url";
    mret (check_http_service w url
            (dict_get_default service "timeout" (PInt 10))
            (dict_get_default service "expected_status" (PInt 200)))
  else if py_eq stype (PStr "tcp") then
    host ← dict_item service "host";
    port ← dict_item service "port";
    mret (check_tcp_service w host port (dict_get_default service "timeout" (PInt 5)))
  else if py_eq stype (PStr "dns") then
    host ← dict_item service "host";
    mret (check_dns_resolution w host None)
  else if py_eq stype (PStr "api") then
    url ← dict_item service "url";
    mret (check_api_endpoint w url
            (dict_get_default service "method" (PStr "GET"))
            (dict_get service "expected_response")
            (dict_get_default service "timeout" (PInt 10)))
  else
    mret ({[ "status" := PStr "unknown"; "error" := PStr "Unknown type" ]} : Dict).

End Checker.

(** ** The result store ([database.py]) *)

Module Database.

(* A row of [service_checks]. SQLite columns are dynamically typed, so a
   cell holds a [PyVal]; [PNone] is NULL. *)
Record Row := mkRow {
  col_id : Z;
  col_service_name : PyVal;
  col_service_type : PyVal;
  col_status : PyVal;
  col_response_time_ms : PyVal;
  col_status_code : PyVal;
  col_error_message : PyVal;
  col_timestamp : PyVal
}.

(* What the storage engine does to the calls of one operation: each of
   [sqlite3.connect], [conn.execute] and [conn.commit] may raise. *)
Record Faults := mkFaults {
  connect_fault : option PyExc;
  execute_fault : option PyExc;
  commit_fault : option PyExc
}.

Definition no_faults : Faults := mkFaults None None None.

Record Db := mkDb {
  service_checks : list Row;     (* committed rows, in insertion order *)
  open_connections : nat;        (* connections opened and not yet closed *)
  db_now : Z                     (* the engine's clock, in seconds *)
}.

Abbreviation DbM := (StateExc Db).

Definition fault (o : option PyExc) : DbM unit :=
  match o with
  | Some e => raise e
  | None => mret tt
  end.

(* [_get_connection] (lines 11-12). *)
Definition _get_connection (f : Faults) : DbM unit :=
  _ ← fault (connect_fault f);
  modify (fun db => mkDb (service_checks db) (S (open_connections db)) (db_now db)).

(* [conn.close()] *)
Definition close : DbM unit :=
  modify (fun db => mkDb (service_checks db) (Nat.pred (open_connections db)) (db_now db)).

Definition not_null (v : PyVal) : bool :=
  match v with PNone => false | _ => true end.

(* [conn.execute('INSERT ...')]: the three NOT NULL columns are checked. *)
Definition execute_insert (f : Faults) (r : Row) : DbM unit :=
  _ ← fault (execute_fault f);
  if not_null (col_service_name r) && not_null (col_service_type r) && not_null (col_status r)
  then mret tt
  else raise (mkExc DatabaseError "NOT NULL constraint failed").

(* [conn.commit()]: the inserted row becomes durable, with the next id. *)
Definition commit (f : Faults) (r : Row) : DbM unit :=
  _ ← fault (commit_fault f);
  modify (fun db =>
     let r' := mkRow (Z.of_nat (S (length (service_checks db))))
                 (col_service_name r) (col_service_type r) (col_status r)
                 (col_response_time_ms r) (col_status_code r)
                 (col_error_message r) (col_timestamp r) in
     mkDb (service_checks db ++ [r']) (open_connections db) (db_now db)).

(* [log_check] (lines 48-67). *)
Definition log_check (f : Faults) (result : Dict) (service_name service_type : PyVal) : DbM unit :=
  _ ← _get_connection f;
  try_finally
    (let row := mkRow 0 service_name service_type
                  (dict_get result "status")
                  (dict_get result "response_time_ms")
                  (dict_get result "status_code")
                  (py_or (dict_get result "error_message") (dict_get result "error"))
                  (dict_get result "timestamp") in
     _ ← execute_insert f row;
     commit f row)
    close.

(* Order of the [timestamp] column: NULL sorts first, then by time. *)
Definition ts_leb (a b : PyVal) : bool :=
  match a, b with
  | PDatetime s, PDatetime t => s <=? t
  | PNone, _ => true
  | _, PNone => false
  | _, _ => true
  end.

Definition newer_first (a b : Row) : Prop :=
  ts_leb (col_timestamp b) (col_timestamp a) = true.

Global Instance newer_first_dec a b : Decision (newer_first a b).
Proof. unfold newer_first. apply _. Defined.

(* The SELECT of [get_history]: WHERE, ORDER BY timestamp DESC, LIMIT (a
   negative LIMIT is no limit). *)
Definition select_history (name : PyVal) (limit : Z) (t : list Row) : list Row :=
  let matching := List.filter (fun r => py_eq (col_service_name r) name) t in
  let sorted := merge_sort newer_first matching in
  if limit <? 0 then sorted else take (Z.to_nat limit) sorted.

(* [get_history] (lines 69-82). *)
Definition get_history (f : Faults) (service_name : PyVal) (limit : Z) : DbM (list Row) :=
  _ ← _get_connection f;
  _ ← fault (execute_fault f);
  rows ← gets (fun db => select_history service_name limit (service_checks db));
  _ ← close;
  mret rows.

(* [timestamp >= datetime('now', '-H hours')] *)
Definition in_window (cutoff : Z) (ts : PyVal) : bool :=
  match ts with
  | PDatetime t => cutoff <=? t
  | _ => false
  end.

Definition window_rows (name : PyVal) (hours : Z) (db : Db) : list Row :=
  List.filter
    (fun r => py_eq (col_service_name r) name
              && in_window (db_now db - hours * 3600) (col_timestamp r))
    (service_checks db).

Definition is_up (r : Row) : bool := py_eq (col_status r) (PStr "up").

(* COUNT( * ) *)
Definition sql_count (rs : list Row) : PyVal := PInt (Z.of_nat (length rs)).

(* SUM(CASE WHEN status = 'up' THEN 1 ELSE 0 END): NULL over no rows. *)
Definition sql_sum_up (rs : list Row) : PyVal :=
  match rs with
  | [] => PNone
  | _ => PInt (foldr (fun r acc => (if is_up r then 1 else 0) + acc) 0 rs)
  end.

(* AVG(response_time_ms): over the cells that hold a number, NULL if none. *)
Definition sql_avg_latency (rs : list Row) : PyVal :=
  let xs := omap (fun r => num_of (col_response_time_ms r)) rs in
  match xs with
  | [] => PNone
  | _ => PFloat (foldr Qplus 0%Q xs / inject_Z (Z.of_nat (length xs)))%Q
  end.

Record UptimeStats := mkStats {
  uptime_percent : float;
  total_checks : Z;
  avg_latency : Q
}.

Definition int_of (v : PyVal) : Z :=
  match v with PInt z => z | PBool true => 1 | _ => 0 end.

Definition float_of_Z (z : Z) : float := PrimFloat.of_uint63 (Uint63.of_Z z).

(* [get_uptime_stats] (lines 84-108). *)
Definition get_uptime_stats (f : Faults) (service_name : PyVal) (hours : Z) : DbM UptimeStats :=
  _ ← _get_connection f;
  _ ← fault (execute_fault f);
  row ← gets (fun db =>
           let rs := window_rows service_name hours db in
           (sql_count rs, sql_sum_up rs, sql_avg_latency rs));
  _ ← close;
  let '(c, s, a) := row in
  let total := int_of (py_or c (PInt 0)) in
  let success := int_of (py_or s (PInt 0)) in
  let avg := default 0%Q (num_of (py_or a (PInt 0))) in
  mret (mkStats
          (if 0 <? total
           then PrimFloat.mul (PrimFloat.div (float_of_Z success) (float_of_Z total))
                              (float_of_Z 100)
           else PrimFloat.zero)
          total
          (py_round2 avg)).

End Database.

(** ** The monitoring loops ([checker.py], lines 209-236 and 466-544) *)

Module Monitor.
Import Database.

(* [str(v)] as an f-string prints it. Only [None], [str], [bool] and [int]
   reach an f-string in the code below; the other two cases are nominal. *)
Definition py_str (v : PyVal) : string :=
  match v with
  | PNone => "None"
  | PBool b => if b then "True" else "False"
  | PInt z => pretty z
  | PStr s => s
  | PStrList l => repr_str_list l
  | PFloat q => pretty (Qnum q) +:+ "/" +:+ pretty (Z.pos (Qden q))
  | PDatetime t => pretty t
  end.

(* The fields of [self] the loops touch. *)
Record State := mkState {
  services : list Dict;
  db : Db;
  metrics : gmap string (list Dict);
  alerts : list Dict
}.

Abbreviation LoopM := (StateExc State).

(* A store operation run on [self.db]. *)
Definition lift_db {A} (m : DbM A) : LoopM A := fun st =>
  let '(r, db') := m (db st) in
  (r, mkState (services st) db' (metrics st) (alerts st)).

(* The key of [self.metrics] for a service name. Names are the [str]
   values of the configuration; another value is outside the model. *)
Definition metrics_key (name : PyVal) : Res string :=
  match name with
  | PStr n => Ret n
  | _ => Raise (mkExc OtherException "service name is not a str")
  end.

(* [__init__], line 32: [{s['name']: [] for s in self.services}] *)
Fixpoint init_metrics (ss : list Dict) : Res (gmap string (list Dict)) :=
  match ss with
  | [] => Ret ∅
  | s :: ss' =>
      name ← dict_item s "name";
      k ← metrics_key name;
      m ← init_metrics ss';
      mret (<[k := []]> m)
  end.

(* Lines 230-231 and 477-479:
     [buf.append(res)]; [if len(buf) > 100: buf.pop(0)] *)
Definition cache_append (buf : list Dict) (res : Dict) : list Dict :=
  let buf := buf ++ [res] in
  if (100 <? length buf)%nat then drop 1 buf else buf.

(* The same on [self.metrics[name]]; a missing key raises [KeyError]. *)
Definition cache_record (name : string) (res : Dict)
    (m : gmap string (list Dict)) : Res (gmap string (list Dict)) :=
  match m !! name with
  | Some buf => Ret (<[name := cache_append buf res]> m)
  | None => Raise (mkExc KeyError ("'" +:+ name +:+ "'"))
  end.

Definition update_cache (name : PyVal) (res : Dict) : LoopM unit :=
  k ← lift_res (metrics_key name);
  m ← gets metrics;
  m' ← lift_res (cache_record k res m);
  modify (fun st => mkState (services st) (db st) m' (alerts st)).

(** *** The asynchronous loop, [run_monitoring_loop] (lines 209-236) *)

(* [asyncio.gather( *tasks)]: every result, or the exception of a check
   that raised. The i-th check runs in the world [W i]. *)
Fixpoint gather (W : nat -> World) (i : nat) (ss : list Dict) : Res (list Dict) :=
  match ss with
  | [] => Ret []
  | s :: ss' =>
      r ← Checker.perform_check (W i) s;
      rs ← gather W (S i) ss';
      mret (r :: rs)
  end.

(* Lines 224-231, the loop over [zip(self.services, results)]. *)
Fixpoint process_results (F : nat -> Faults) (i : nat) (xs : list (Dict * Dict)) : LoopM unit :=
  match xs with
  | [] => mret tt
  | (service, res) :: xs' =>
      name ← lift_res (dict_item service "name");
      _ ← lift_db (log_check (F i) res name (dict_get_default service "type" (PStr "http")));
      _ ← update_cache name res;
      process_results F (S i) xs'
  end.

(* One iteration of [while True] (lines 215-233). *)
Definition run_cycle (W : nat -> World) (F : nat -> Faults) : LoopM unit :=
  ss ← gets services;
  results ← lift_res (gather W 0 ss);
  process_results F 0 (zip ss results).

(* [run_monitoring_loop], cancelled while it sleeps after [n] cycles; the
   k-th cycle runs in the worlds [W k] with the storage faults [F k]. *)
Fixpoint run_monitoring_loop (W : nat -> nat -> World) (F : nat -> nat -> Faults)
    (k n : nat) : LoopM unit :=
  match n with
  | O => mret tt
  | S n' => _ ← run_cycle (W k) (F k); run_monitoring_loop W F (S k) n'
  end.

(** *** The synchronous loop, [monitor_continuously] (lines 466-488) *)

(* [send_alert] (lines 538-544). *)
Definition send_alert (t : Z) (service_name : PyVal) (type : string) (message : PyVal) : LoopM unit :=
  let msg := "ALERT: " +:+ py_str service_name +:+ " is " +:+ type
             +:+ ". Detail: " +:+ py_str message in
  modify (fun st => mkState (services st) (db st) (metrics st)
            (alerts st ++ [ ({[ "timestamp" := PDatetime t; "message" := PStr msg ]} : Dict) ])).

Section Synchronous.

(* The synchronous [perform_check] (lines 437-464) and the checks it
   calls, taken as given: the i-th call of a pass returns [check i s]. *)
Variable check : nat -> Dict -> Res Dict.
(* [datetime.now()] at the i-th alert site. *)
Variable alert_time : nat -> Z.

(* Lines 472-483, the body of [for service in self.services]. *)
Definition monitor_service (i : nat) (service : Dict) : LoopM unit :=
  name ← lift_res (dict_item service "name");
  res ← lift_res (check i service);
  _ ← update_cache name res;
  st ← lift_res (dict_item res "status");
  if py_eq st (PStr "down") && py_truthy (dict_get service "alert_on_failure")
  then send_alert (alert_time i) name "DOWN"
         (py_or (dict_get res "error_message") (dict_get res "error"))
  else mret tt.

Fixpoint monitor_services (i : nat) (ss : list Dict) : LoopM unit :=
  match ss with
  | [] => mret tt
  | s :: ss' => _ ← monitor_service i s; monitor_services (S i) ss'
  end.

(* One iteration of [while True] (lines 472-485). *)
Definition monitor_cycle : LoopM unit :=
  ss ← gets services;
  monitor_services 0 ss.

End Synchronous.

(* [monitor_continuously] (lines 466-488), interrupted while it sleeps
   after [n] passes; the k-th pass sees the checks [check k]. *)
Fixpoint monitor_continuously (check : nat -> nat -> Dict -> Res Dict)
    (alert_time : nat -> nat -> Z) (k n : nat) : LoopM unit :=
  match n with
  | O => mret tt
  | S n' =>
      _ ← monitor_cycle (check k) (alert_time k);
      monitor_continuously check alert_time (S k) n'
  end.

End Monitor.

(** ** The class as Python binds it ([checker.py], lines 352-544)

    The second generation of methods replaces the first in the namespace
    of the class: the [check_tcp_service], [check_dns_resolution],
    [check_api_endpoint], [perform_check], [monitor_continuously],
    [_generate_dashboard_table] and [calculate_uptime] of this module are
    the ones a [ServiceHealthChecker] runs. [check_http_service] has the
    single definition of line 55, an [async def]. *)

Module Bound.

(* The names the module [checker.py] binds (lines 1-21). *)
Definition module_globals : list string :=
  [ "asyncio"; "httpx"; "socket"; "time"; "json"; "dns"; "Path"; "datetime";
    "Dict"; "Any"; "List"; "Optional"; "Template"; "Console"; "Table"; "Live";
    "setup_logger"; "DatabaseManager"; "logger"; "console";
    "ServiceHealthChecker" ].

(* Reading a global name no builtin carries: [NameError] unless the module
   binds it. *)
Definition load_global (name : string) : Res unit :=
  if bool_decide (name ∈ module_globals) then Ret tt
  else Raise (mkExc NameError ("name '" +:+ name +:+ "' is not defined")).

(* [check_tcp_service] (lines 352-369). [tcp_open] is
   [socket.create_connection], [tcp_wait_closed] the close of the socket
   on leaving the [with] block; the result is already written then. *)
Definition check_tcp_service (w : World) (host port timeout : PyVal) : Dict :=
  let result : Dict :=
    {[ "timestamp" := PDatetime (now w);
       "status" := PStr "down";
       "error_message" := PNone ]} in
  match tcp_open w host port timeout with
  | Ret _ =>
      let duration := duration_ms w in
      let result := <["status" := PStr "up"]> result in
      let result := <["response_time_ms" := PFloat (py_round2 duration)]> result in
      match tcp_wait_closed w with
      | Ret _ => result
      | Raise e => <["error_message" := PStr (exc_str e)]> result
      end
  | Raise e => <["error_message" := PStr (exc_str e)]> result
  end.

(* [check_dns_resolution] (lines 371-399): statement for statement the
   body of lines 114-145, the resolver called in place. *)
Definition check_dns_resolution (w : World) (domain : PyVal) (expected_ip : option string) : Dict :=
  Checker.check_dns_resolution w domain expected_ip.

(* requests: [ok] is a status code outside 400-599. *)
Definition is_ok (r : Response) : bool :=
  negb ((400 <=? status_code r) && (status_code r <? 600)).

(* [check_api_endpoint] (lines 401-435). The call of line 411 reads the
   global [requests] first. [expected_response] is accepted and never
   read. *)
Definition check_api_endpoint (w : World) (url method expected_response timeout : PyVal) : Dict :=
  let result : Dict :=
    {[ "timestamp" := PDatetime (now w);
       "status" := PStr "down";
       "error" := PNone ]} in
  let attempt : Res Dict :=
    _ ← load_global "requests";
    resp ← http_request w method url timeout;
    let duration := duration_ms w in
    if negb (is_ok resp)
    then mret (<["error" := PStr ("API Error: " +:+ pretty (status_code resp))]> result)
    else
      data ← json resp;
      mret (dict_update result
        [ ("status", PStr "up");
          ("response_time_ms", PFloat (py_round2 duration));
          ("data_sample", PStr (String.substring 0 100 data)) ]) in
  match attempt with
  | Ret r => r
  | Raise e =>
      if decide (exc_class e = JSONDecodeError)
      then <["error" := PStr "Invalid JSON response"]> result
      else <["error" := PStr (exc_str e)]> result
  end.

(* What a call of [perform_check] hands back: a result dictionary, or the
   coroutine object that calling the [async def check_http_service]
   creates. The coroutine holds the arguments as the call bound them to
   [client], [url], [timeout] and [expected_status]; its body has not
   run. *)
Inductive Returned :=
| Result (d : Dict)
| Coroutine (client url timeout expected_status : PyVal).

(* [perform_check] (lines 437-464). Line 443 passes three positional
   arguments to [check_http_service(self, client, url, timeout=10,
   expected_status=200)] and does not await the coroutine. *)
Definition perform_check (w : World) (service : Dict) : Res Returned :=
  let stype := dict_get_default service "type" (PStr "http") in
  if py_eq stype (PStr "http") then
    url ← dict_item service "url";
    mret (Coroutine url
            (dict_get_default service "timeout" (PInt 10))
            (dict_get_default service "expected_status" (PInt 200))
            (PInt 200))
  else if py_eq stype (PStr "tcp") then
    host ← dict_item service "host";
    port ← dict_item service "port";
    mret (Result (check_tcp_service w host port (dict_get_default service "timeout" (PInt 5))))
  else if py_eq stype (PStr "dns") then
    host ← dict_item service "host";
    mret (Result (check_dns_resolution w host None))
  else if py_eq stype (PStr "api") then
    url ← dict_item service "url";
    mret (Result (check_api_endpoint w url
            (dict_get_default service "method" (PStr "GET"))
            (dict_get service "expected_response")
            (dict_get_default service "timeout" (PInt 10))))
  else
    mret (Result {[ "status" := PStr "unknown"; "error" := PStr "Unknown type" ]}).

(* [res[k]] *)
Definition item (res : Returned) (k : string) : Res PyVal :=
  match res with
  | Result d => dict_item d k
  | Coroutine _ _ _ _ => Raise (mkExc TypeError "'coroutine' object is not subscriptable")
  end.

(* [res.get(k, dflt)] *)
Definition get (res : Returned) (k : string) (dflt : PyVal) : Res PyVal :=
  match res with
  | Result d => Ret (dict_get_default d k dflt)
  | Coroutine _ _ _ _ => Raise (mkExc AttributeError "'coroutine' object has no attribute 'get'")
  end.

(* The fields of [self] the synchronous loop touches. *)
Record State := mkState {
  services : list Dict;
  metrics : gmap string (list Returned);
  alerts : list Dict
}.

Abbreviation LoopM := (StateExc State).

(* Lines 477-479 on [self.metrics[name]]. *)
Definition cache_append (buf : list Returned) (res : Returned) : list Returned :=
  let buf := buf ++ [res] in
  if (100 <? length buf)%nat then drop 1 buf else buf.

Definition update_cache (name : PyVal) (res : Returned) : LoopM unit :=
  k ← lift_res (Monitor.metrics_key name);
  m ← gets metrics;
  match m !! k with
  | Some buf =>
      modify (fun st => mkState (services st) (<[k := cache_append buf res]> m) (alerts st))
  | None => raise (mkExc KeyError ("'" +:+ k +:+ "'"))
  end.

(* [send_alert] (lines 538-544). *)
Definition send_alert (t : Z) (service_name : PyVal) (type : string) (message : PyVal) : LoopM unit :=
  let msg := "ALERT: " +:+ Monitor.py_str service_name +:+ " is " +:+ type
             +:+ ". Detail: " +:+ Monitor.py_str message in
  modify (fun st => mkState (services st) (metrics st)
            (alerts st ++ [ ({[ "timestamp" := PDatetime t; "message" := PStr msg ]} : Dict) ])).

(* Lines 472-483, the body of [for service in self.services]; the check
   of the i-th service runs in the world [W i], and [alert_time i] is
   [datetime.now()] at its alert site. *)
Definition monitor_service (W : nat -> World) (alert_time : nat -> Z)
    (i : nat) (service : Dict) : LoopM unit :=
  name ← lift_res (dict_item service "name");
  res ← lift_res (perform_check (W i) service);
  _ ← update_cache name res;
  st ← lift_res (item res "status");
  if py_eq st (PStr "down") && py_truthy (dict_get service "alert_on_failure")
  then
    message ← lift_res (a ← get res "error_message" PNone;
                        if py_truthy a then mret a else get res "error" PNone);
    send_alert (alert_time i) name "DOWN" message
  else mret tt.

Fixpoint monitor_services (W : nat -> World) (alert_time : nat -> Z)
    (i : nat) (ss : list Dict) : LoopM unit :=
  match ss with
  | [] => mret tt
  | s :: ss' => _ ← monitor_service W alert_time i s; monitor_services W alert_time (S i) ss'
  end.

(* A cell of the dashboard. The cells the code formats are kept with the
   value they format. *)
Inductive Cell :=
| CValue (v : PyVal)       (* the value itself: name, type *)
| CPending                 (* "PENDING" *)
| CDash                    (* "-" *)
| CUp                      (* the UP icon *)
| CDown                    (* the DOWN icon *)
| CMillis (v : PyVal)      (* f"{v}ms" *)
| CPercent (p : float)     (* f"{p:.1f}%" *)
| CClock (t : Z).          (* t.strftime("%H:%M:%S") *)

(* [sum(1 for r in history if r['status'] == 'up')] *)
Fixpoint count_successful (history : list Returned) : Res Z :=
  match history with
  | [] => Ret 0
  | r :: rest =>
      st ← item r "status";
      n ← count_successful rest;
      mret ((if py_eq st (PStr "up") then 1 else 0) + n)
  end.

(* [calculate_uptime] (lines 530-536). *)
Definition calculate_uptime (m : gmap string (list Returned)) (service_name : string) : Res float :=
  let history := default [] (m !! service_name) in
  match history with
  | [] => Ret 0%float
  | _ :: _ =>
      successful ← count_successful history;
      mret (Database.float_of_Z successful
            / Database.float_of_Z (Z.of_nat (length history)) * 100)%float
  end.

(* [v.strftime("%H:%M:%S")]: only a [datetime] has the method. *)
Definition strftime (v : PyVal) : Res Cell :=
  match v with
  | PDatetime t => Ret (CClock t)
  | _ => Raise (mkExc AttributeError "object has no attribute 'strftime'")
  end.

(* The body of [for service in self.services] (lines 500-526). *)
Definition dashboard_row (m : gmap string (list Returned)) (service : Dict) : Res (list Cell) :=
  name ← dict_item service "name";
  k ← Monitor.metrics_key name;
  let history := default [] (m !! k) in
  match last history with
  | None =>
      mret [CValue name; CValue (dict_get service "type"); CPending; CDash; CDash; CDash]
  | Some res =>
      st ← item res "status";
      let status_icon := if py_eq st (PStr "up") then CUp else CDown in
      latency ← get res "response_time_ms" (PInt 0);
      uptime ← calculate_uptime m k;
      stamp ← item res "timestamp";
      clock ← strftime stamp;
      mret [CValue name; CValue (dict_get service "type"); status_icon;
            CMillis latency; CPercent uptime; clock]
  end.

Fixpoint dashboard_rows (m : gmap string (list Returned)) (ss : list Dict)
    : Res (list (list Cell)) :=
  match ss with
  | [] => Ret []
  | s :: ss' =>
      row ← dashboard_row m s;
      rows ← dashboard_rows m ss';
      mret (row :: rows)
  end.

(* [_generate_dashboard_table] (lines 490-528): the rows of the table. *)
Definition _generate_dashboard_table : LoopM (list (list Cell)) :=
  fun st => (dashboard_rows (metrics st) (services st), st).

(* One iteration of [while True] (lines 472-485): the pass over the
   services, then the table [live.update] is given. *)
Definition monitor_cycle (W : nat -> World) (alert_time : nat -> Z) : LoopM (list (list Cell)) :=
  ss ← gets services;
  _ ← monitor_services W alert_time 0 ss;
  _generate_dashboard_table.

Fixpoint monitor_passes (W : nat -> nat -> World) (alert_time : nat -> nat -> Z)
    (k n : nat) : LoopM unit :=
  match n with
  | O => mret tt
  | S n' =>
      _ ← monitor_cycle (W k) (alert_time k);
      monitor_passes W alert_time (S k) n'
  end.

(* [monitor_continuously] (lines 466-488), interrupted while it sleeps
   after [n] passes; the k-th pass runs in the worlds [W k]. *)
Definition monitor_continuously (W : nat -> nat -> World) (alert_time : nat -> nat -> Z)
    (n : nat) : LoopM unit :=
  _ ← _generate_dashboard_table;
  monitor_passes W alert_time 0 n.

End Bound.

(** ** Around the loops: construction and configuration wizard *)

(** *** The constructor ([checker.py], lines 27-53, and [database.py],
    lines 14-46) *)

Module Setup.
Import Database Monitor.

(* What [json.load] returns for a configuration file: a JSON object, with
   its [services] entry when it has one (a list of objects), or a value of
   another kind. *)
Inductive ConfigDoc :=
| ConfigObject (services : option (list Dict))
| ConfigOther.

(* The files the constructor looks at. *)
Record Files := mkFiles {
  file_exists : string -> bool;            (* Path.exists() *)
  json_load : string -> Res ConfigDoc;     (* open(path) and json.load(f) *)
  mkdir_fault : option PyExc               (* Path("reports").mkdir(exist_ok=True) *)
}.

Definition cwd_config : string := "src/net_diag_tool/config/services.json".

(* [_resolve_config_path] (lines 37-39); [package_config] is the
   [services.json] beside the package. *)
Definition _resolve_config_path (package_config : string) (path : option string) : string :=
  match path with
  | Some p => if String.eqb p "" then package_config else p
  | None => package_config
  end.

(* [load_service_config] (lines 41-53). *)
Definition load_service_config (fs : Files) (config_path : string) : ConfigDoc :=
  let no_services := ConfigObject (Some []) in
  let read path :=
    match json_load fs path with
    | Ret doc => doc
    | Raise _ => no_services
    end in
  if negb (file_exists fs config_path)
  then if file_exists fs cwd_config then read cwd_config else no_services
  else read config_path.

(* [_init_db] (lines 14-46): both tables are created IF NOT EXISTS, so the
   rows of an existing table stay. *)
Definition _init_db (f : Faults) : DbM unit :=
  _ ← _get_connection f;
  _ ← fault (execute_fault f);
  _ ← fault (execute_fault f);
  _ ← fault (commit_fault f);
  close.

(* [__init__] (lines 27-35) on the store [d] found on disk. *)
Definition new_checker (fs : Files) (package_config : string) (config_file : option string)
    (f : Faults) (d : Db) : Res State :=
  let config := load_service_config fs (_resolve_config_path package_config config_file) in
  services ←
    match config with
    | ConfigObject o => Ret (default [] o)
    | ConfigOther => Raise (mkExc AttributeError "object has no attribute 'get'")
    end;
  d' ← (let '(r, d') := _init_db f d in _ ← r; mret d');
  metrics ← init_metrics services;
  _ ← match mkdir_fault fs with Some e => Raise e | None => Ret tt end;
  mret (mkState services d' metrics []).

End Setup.

(** *** The configuration wizard ([main.py], lines 250-266) *)

Module Wizard.

Section AddService.

(* [typer.prompt(text, default=...)]: what the operator answers to the
   prompt [text], the default when there is one and nothing was typed. *)
Variable prompt : string -> string.
(* [int(s)] *)
Variable py_int : string -> Res Z.

(* The branch [choice.lower() == 'a'] of [configure]: the service that is
   appended to the configuration. *)
Definition add_service : Res Dict :=
  let name := prompt "Service Name (e.g. My Website)" in
  let stype := prompt "Type (http, tcp, dns, api)" in
  let service : Dict := {[ "name" := PStr name; "type" := PStr stype ]} in
  service ←
    (if String.eqb stype "http" then
       let url := prompt "URL" in
       status ← py_int (prompt "Expected Status");
       mret (<["expected_status" := PInt status]> (<["url" := PStr url]> service))
     else if String.eqb stype "tcp" then
       let host := prompt "Host" in
       port ← py_int (prompt "Port");
       mret (<["port" := PInt port]> (<["host" := PStr host]> service))
     else if String.eqb stype "dns" then
       mret (<["host" := PStr (prompt "Domain to resolve")]> service)
     else mret service);
  interval ← py_int (prompt "Check Interval (seconds)");
  mret (<["check_interval" := PInt interval]> service).

End AddService.

End Wizard.

(** ** Vocabulary of the statements *)

(* The type the dispatcher reads (lines 181 and 439). *)
Definition effective_type (service : Dict) : PyVal :=
  dict_get_default service "type" (PStr "http").

Definition valid_type (t : PyVal) : bool :=
  py_eq t (PStr "http") || py_eq t (PStr "tcp")
  || py_eq t (PStr "dns") || py_eq t (PStr "api").



Definition unknown_result : Dict :=
  {[ "status" := PStr "unknown"; "error" := PStr "Unknown type" ]}.

(* The real number a binary64 float stands for. *)
Definition float_value (f : float) : option Q :=
  match Prim2SF f with
  | S754_zero _ => Some 0%Q
  | S754_finite s m e =>
      Some (inject_Z (if s then Z.neg m else Z.pos m) * Qpower 2 e)%Q
  | _ => None
  end.

Definition count_up (rs : list Database.Row) : nat :=
  length (List.filter Database.is_up rs).

(* No buffer of the cache holds more than 100 entries. *)
Definition all_bounded (m : gmap string (list Dict)) : Prop :=
  ∀ k buf, m !! k = Some buf -> (length buf <= 100)%nat.

Definition bounded (st : Monitor.State) : Prop := all_bounded (Monitor.metrics st).

(* The buffer of a service after the results [rs] were recorded in turn. *)
Definition record_all (name : string) (rs : list Dict)
    (m : gmap string (list Dict)) : Res (gmap string (list Dict)) :=
  foldl (fun acc r => m' ← acc; Monitor.cache_record name r m') (Ret m) rs.

(* The row [log_check] stores for [result] in a table of [n] rows. *)
Definition logged_row (n : nat) (result : Dict) (name type : PyVal) : Database.Row :=
  Database.mkRow (Z.of_nat (S n)) name type
    (dict_get result "status")
    (dict_get result "response_time_ms")
    (dict_get result "status_code")
    (py_or (dict_get result "error_message") (dict_get result "error"))
    (dict_get result "timestamp").

(* The storage engine lets the INSERT of [log_check] through. *)
Definition log_accepted (f : Database.Faults) (result : Dict) (name type : PyVal) : bool :=
  bool_decide (Database.connect_fault f = None)
  && bool_decide (Database.execute_fault f = None)
  && bool_decide (Database.commit_fault f = None)
  && Database.not_null name && Database.not_null type
  && Database.not_null (dict_get result "status").

(* The storage engine fails none of the calls of an operation. *)
Definition no_fault (f : Database.Faults) : Prop :=
  Database.connect_fault f = None ∧ Database.execute_fault f = None
  ∧ Database.commit_fault f = None.

(* The stored rows of a service. *)
Definition rows_of (name : PyVal) (d : Database.Db) : list Database.Row :=
  List.filter (fun r => py_eq (Database.col_service_name r) name)
    (Database.service_checks d).

(* A timestamp cell written by the checks: a datetime, or NULL. *)
Definition stamp_before (t : Z) (ts : PyVal) : Prop :=
  ts = PNone ∨ ∃ t', ts = PDatetime t' ∧ t' < t.

(* No configuration can be read at [path]: neither it nor the fallback
   under the working directory exists, or the file that is opened cannot
   be loaded. *)
Definition config_unusable (fs : Setup.Files) (path : string) : Prop :=
  if Setup.file_exists fs path
  then ¬ is_Ret (Setup.json_load fs path)
  else if Setup.file_exists fs Setup.cwd_config
       then ¬ is_Ret (Setup.json_load fs Setup.cwd_config)
       else True.




(* The alert [send_alert] appends for a DOWN event. *)
Definition down_alert (t : Z) (name : string) (detail : PyVal) : Dict :=
  {[ "timestamp" := PDatetime t;
     "message" := PStr ("ALERT: " +:+ name +:+ " is DOWN. Detail: "
                        +:+ Monitor.py_str detail) ]}.

(* A cached entry whose status the dashboard can read. *)
Definition has_status (res : Bound.Returned) : Prop :=
  ∃ r st, res = Bound.Result r ∧ r !! "status" = Some st.

Definition is_up_result (res : Bound.Returned) : bool :=
  match res with
  | Bound.Result r => py_eq (dict_get r "status") (PStr "up")
  | Bound.Coroutine _ _ _ _ => false
  end.

(* The share of up results in a buffer of the cache, in percent, as
   binary64 computes it. *)
Definition uptime_of (history : list Bound.Returned) : float :=
  (Database.float_of_Z (Z.of_nat (length (List.filter is_up_result history)))
   / Database.float_of_Z (Z.of_nat (length history)) * 100)%float.

(* The dashboard can draw the row of [service]: the service has a name,
   every cached entry of it has a status, and the last one a datetime
   stamp. *)
Definition presentable (m : gmap string (list Bound.Returned)) (service : Dict) : Prop :=
  ∃ k, service !! "name" = Some (PStr k)
       ∧ Forall has_status (default [] (m !! k))
       ∧ match last (default [] (m !! k)) with
         | Some (Bound.Result r) => ∃ t, r !! "timestamp" = Some (PDatetime t)
         | Some (Bound.Coroutine _ _ _ _) => False
         | None => True
         end.

(** ** Sample inputs *)

Module Samples.
Import Database Monitor.

Definition unreachable : PyExc := mkExc OtherException "[Errno 111] Connection refused".

(* A world in which the HTTP client, the TCP connect and the resolver
   answer as given; the check takes half a second. *)
Definition world (http : Res Response) (tcp : Res unit) (dns : Res (list string)) : World :=
  mkWorld 1700000000 (Qmake 10 1) (Qmake 21 2)
    (fun _ _ => http) (fun _ _ _ => http) (fun _ _ _ => tcp) (Ret tt) (fun _ => dns).

Definition world_refused : World :=
  world (Raise unreachable) (Raise unreachable) (Raise unreachable).

Definition world_connected : World :=
  world (Ret (mkResponse 200 (Ret "{'ok': True}"))) (Ret tt) (Ret ["5.6.7.8"]).

Definition world_not_json : World :=
  world (Ret (mkResponse 200 (Raise (mkExc JSONDecodeError "Expecting value"))))
        (Ret tt) (Ret ["5.6.7.8"]).

(* Scenario C of the specification, as the configuration wizard writes a
   DNS service (the domain under [host]). *)
Definition dns_service : Dict :=
  {[ "name" := PStr "resolver"; "type" := PStr "dns";
     "host" := PStr "example.com"; "expected_ip" := PStr "1.2.3.4" ]}.

(* A DNS definition of the shape of the specification (section 6). *)
Definition dns_service_domain : Dict :=
  {[ "name" := PStr "resolver"; "type" := PStr "dns";
     "domain" := PStr "example.com" ]}.

Definition tcp_service : Dict :=
  {[ "name" := PStr "ssh"; "type" := PStr "tcp"; "host" := PStr "localhost";
     "port" := PInt 22; "alert_on_failure" := PBool true ]}.

Definition api_service : Dict :=
  {[ "name" := PStr "api"; "type" := PStr "api";
     "url" := PStr "https://example.com/v1"; "expected_status" := PInt 404 ]}.

(* An HTTP definition that leaves [type] and [expected_status] to their
   defaults. *)
Definition site_service : Dict :=
  {[ "name" := PStr "site"; "url" := PStr "https://example.com" ]}.

Definition ftp_service : Dict :=
  {[ "name" := PStr "files"; "type" := PStr "ftp"; "host" := PStr "localhost" ]}.

Definition empty_db : Db := mkDb [] 0 1700000100.

Definition tcp_state : State :=
  mkState [tcp_service] empty_db {[ "ssh" := [] ]} [].

(* A TCP service followed by a DNS definition without the [host] key. *)
Definition mixed_state : State :=
  mkState [tcp_service; dns_service_domain] empty_db
    {[ "ssh" := []; "resolver" := [] ]} [].

(* No configuration file anywhere. *)
Definition no_files : Setup.Files :=
  Setup.mkFiles (fun _ => false)
    (fun _ => Raise (mkExc OtherException "No such file or directory")) None.

(* An operator who adds an API service and keeps the default interval. *)
Definition api_answers (text : string) : string :=
  if String.eqb text "Service Name (e.g. My Website)" then "billing"
  else if String.eqb text "Type (http, tcp, dns, api)" then "api"
  else "60".

(* [int] on the answers above. *)
Definition int_60 (text : string) : Res Z :=
  if String.eqb text "60" then Ret 60
  else Raise (mkExc OtherException "invalid literal for int() with base 10").

Definition locked : Faults :=
  mkFaults None (Some (mkExc DatabaseError "database is locked")) None.

Definition check_row (status : string) : Row :=
  mkRow 0 (PStr "web") (PStr "http") (PStr status) (PFloat (Qmake 12 1))
        (PInt 200) PNone (PDatetime 1700000000).

(* 25 checks of one service in the window, 7 of them up. *)
Definition db_7_of_25 : Db :=
  mkDb (replicate 7 (check_row "up") ++ replicate 18 (check_row "down")) 0 1700000100.

(* 101 distinct results, numbered in capture order. *)
Definition numbered (n : nat) : Dict :=
  {[ "status" := PStr "up"; "status_code" := PInt (Z.of_nat n) ]}.

Definition results_101 : list Dict := map numbered (seq 0 101).

(* Every connection opens, while the wall clock is set back by a second
   between the two readings of the check. *)
Definition world_clock_set_back : World :=
  mkWorld 1700000000 (Qmake 10 1) (Qmake 9 1)
    (fun _ _ => Ret (mkResponse 200 (Ret "{'ok': True}")))
    (fun _ _ _ => Ret (mkResponse 200 (Ret "{'ok': True}")))
    (fun _ _ _ => Ret tt) (Ret tt) (fun _ => Ret ["5.6.7.8"]).

(* An API definition that expects the status the server of
   [world_connected] answers. *)
Definition api_service_200 : Dict :=
  {[ "name" := PStr "api"; "type" := PStr "api";
     "url" := PStr "https://example.com/v1"; "expected_status" := PInt 200 ]}.


(* A checker over a TCP service followed by a DNS definition without the
   [host] key, before the first pass. *)
Definition mixed_checker : Bound.State :=
  Bound.mkState [tcp_service; dns_service_domain]
    {[ "ssh" := []; "resolver" := [] ]} [].

(* The same checker after a pass in which the connection was refused. *)
Definition tcp_checker_down : Bound.State :=
  Bound.mkState [tcp_service]
    {[ "ssh" := [Bound.Result (Bound.check_tcp_service world_refused
                                 (PStr "localhost") (PInt 22) (PInt 5))] ]}
    [down_alert 1700000000 "ssh" (PStr "[Errno 111] Connection refused")].

(* A checker over one HTTP service, before the first pass. *)
Definition site_checker : Bound.State :=
  Bound.mkState [site_service] {[ "site" := [] ]} [].

End Samples.

(** * Properties *)

Ltac res_unfold := unfold mbind, mret, Res_bind, Res_ret in *; cbn beta iota.

(* Lookups in a dictionary built by inserts under literal keys. *)
Ltac dict_solve :=
  unfold dict_get, dict_get_default, dict_update; cbn [foldl fst snd];
  simplify_map_eq; try done.


(** ** Rounding *)

Lemma round_half_even_nonneg (q : Q) : (0 <= q)%Q -> 0 <= round_half_even q.
Proof.
  intros Hq. unfold round_half_even.
  assert (Hf : 0 <= Qfloor q).
  { change 0 with (Qfloor (inject_Z 0)). now apply Qfloor_resp_le. }
  destruct (Qcompare _ _); [destruct (Z.even _) | |]; lia.
Qed.

Lemma py_round2_nonneg (q : Q) : (0 <= q)%Q -> (0 <= py_round2 q)%Q.
Proof.
  intros Hq. unfold py_round2, Qle. cbn.
  assert (0 <= round_half_even (q * 100)); [|lia].
  apply round_half_even_nonneg.
  apply Qmult_le_0_compat; [assumption | discriminate].
Qed.

Lemma duration_ms_nonneg (w : World) :
  (clock_start w <= clock_end w)%Q -> (0 <= duration_ms w)%Q.
Proof.
  intros H. unfold duration_ms.
  apply Qmult_le_0_compat; [|discriminate].
  now apply (proj1 (Qle_minus_iff _ _)).
Qed.

(** ** The four protocol checks *)

Section Checks.
Import Checker.
Context (w : World).







(* Called with [expected_ip], as the unit test [test_check_dns] calls it,
   the DNS check compares the resolved addresses with it. *)
Lemma check_dns_resolution_expected_ip domain ip ips :
  dns_resolve w domain = Ret ips -> ip ≠ "" ->
  let r := check_dns_resolution w domain (Some ip) in
  (ip ∈ ips -> dict_get r "status" = PStr "up")
  ∧ (ip ∉ ips ->
     dict_get r "status" = PStr "down"
     ∧ dict_get r "error"
       = PStr ("IP mismatch. Expected " +:+ ip +:+ ", got " +:+ repr_str_list ips)).
Proof.
  intros Hres Hip. unfold check_dns_resolution. res_unfold. rewrite Hres.
  assert (Hne : String.eqb ip "" = false) by (now apply String.eqb_neq).
  rewrite Hne. cbn [negb andb default]. split; intros Hin.
  - rewrite bool_decide_eq_true_2 by assumption. cbn [negb]. dict_solve.
  - rewrite bool_decide_eq_false_2 by assumption. cbn [negb]. split; dict_solve.
Qed.

End Checks.

(** ** DNS checks through the dispatcher *)

(* Whatever [expected_ip] the definition carries, a dispatched DNS check
   is up as soon as the name resolves. *)
Lemma perform_check_dns_resolved (w : World) (service : Dict) (host : PyVal) (ips : list string) :
  effective_type service = PStr "dns" ->
  service !! "host" = Some host ->
  dns_resolve w host = Ret ips ->
  ∃ r, Checker.perform_check w service = Ret r
       ∧ dict_get r "status" = PStr "up" ∧ dict_get r "error" = PNone.
Proof.
  intros Ht Hh Hr. unfold Checker.perform_check.
  fold (effective_type service). rewrite Ht. cbn [py_eq String.eqb Ascii.eqb Bool.eqb num_of].
  unfold dict_item. rewrite Hh. res_unfold. eexists. split; [reflexivity|].
  unfold Checker.check_dns_resolution. res_unfold. rewrite Hr. split; dict_solve.
Qed.

(** C1 (the code departs from the claim). At the definition of scenario C,
    [expected_ip = "1.2.3.4"] and a resolver that answers ["5.6.7.8"],
    [perform_check] returns a result that is up and carries no error: the
    dispatcher calls [check_dns_resolution(service["host"])] and never
    hands [expected_ip] over. *)
Theorem perform_check_dns_ignores_expected_ip :
  ∃ r, Checker.perform_check Samples.world_connected Samples.dns_service = Ret r
       ∧ dict_get Samples.dns_service "expected_ip" = PStr "1.2.3.4"
       ∧ dict_get r "ips" = PStrList ["5.6.7.8"]
       ∧ ("1.2.3.4" ∉ ["5.6.7.8"])
       ∧ dict_get r "status" = PStr "up"
       ∧ dict_get r "error" = PNone.
Proof.
  eexists. split; [reflexivity|].
  split; [vm_compute; reflexivity|]. split; [vm_compute; reflexivity|].
  split; [apply (bool_decide_eq_false_1 ("1.2.3.4" ∈ ["5.6.7.8"])); reflexivity|].
  split; vm_compute; reflexivity.
Qed.

(** ** The error text of a result *)



(** * The class as bound *)

(** ** TCP checks *)

Section BoundChecks.
Import Bound.
Context (w : World).


Lemma check_tcp_service_refused host port timeout e :
  tcp_open w host port timeout = Raise e ->
  check_tcp_service w host port timeout
  = {[ "timestamp" := PDatetime (now w);
       "status" := PStr "down";
       "error_message" := PStr (exc_str e) ]}.
Proof.
  intros H. unfold check_tcp_service. rewrite H.
  apply map_eq. intros k.
  destruct (decide (k = "error_message")) as [->|]; [dict_solve|].
  destruct (decide (k = "status")) as [->|]; [dict_solve|].
  destruct (decide (k = "timestamp")) as [->|]; dict_solve.
Qed.


Lemma load_global_requests :
  load_global "requests" = Raise (mkExc NameError "name 'requests' is not defined").
Proof. reflexivity. Qed.

Lemma check_api_endpoint_name_error url method expected_response timeout :
  let r := check_api_endpoint w url method expected_response timeout in
  dict_get r "status" = PStr "down"
  ∧ dict_get r "error" = PStr "name 'requests' is not defined".
Proof.
  cbn zeta. unfold check_api_endpoint. res_unfold.
  rewrite load_global_requests. cbn beta iota.
  destruct (decide (exc_class (mkExc NameError "name 'requests' is not defined")
                    = JSONDecodeError)) as [H|_]; [discriminate H|].
  split; dict_solve.
Qed.

End BoundChecks.

(** C3, counterexample. The connection opens, and the wall clock is set
    back by a second between the two readings of [time.time()]: the result
    is up and its [response_time_ms] is -1000.0, below 0. *)
Lemma tcp_latency_negative_when_clock_set_back :
  let w := Samples.world_clock_set_back in
  let r := Bound.check_tcp_service w (PStr "localhost") (PInt 22) (PInt 5) in
  tcp_open w (PStr "localhost") (PInt 22) (PInt 5) = Ret tt
  ∧ dict_get r "status" = PStr "up"
  ∧ dict_get r "response_time_ms" = PFloat (Qmake (-100000) 100)
  ∧ (Qmake (-100000) 100 < 0)%Q.
Proof. repeat split; vm_compute; reflexivity. Qed.

(** C3, amended. For every TCP check: if the connection attempt fails, the
    result is down and carries no [response_time_ms] (null); if it succeeds,
    the result is up and its [response_time_ms] is a number, which is at
    least 0 whenever the clock did not run backwards during the check. *)
Theorem check_tcp_service_latency (w : World) (host port timeout : PyVal) :
  let r := Bound.check_tcp_service w host port timeout in
  match tcp_open w host port timeout with
  | Raise e =>
      dict_get r "status" = PStr "down"
      ∧ r !! "response_time_ms" = None
      ∧ dict_get r "response_time_ms" = PNone
  | Ret _ =>
      dict_get r "status" = PStr "up"
      ∧ ∃ q, dict_get r "response_time_ms" = PFloat q
             ∧ ((clock_start w <= clock_end w)%Q -> (0 <= q)%Q)
  end.
Proof.
  cbn zeta. unfold Bound.check_tcp_service.
  destruct (tcp_open w host port timeout) as [[]|e].
  - destruct (tcp_wait_closed w) as [[]|e'];
      (split; [dict_solve|]);
      (exists (py_round2 (duration_ms w)); split; [dict_solve|]);
      intros H; apply py_round2_nonneg, duration_ms_nonneg, H.
  - repeat split; dict_solve.
Qed.

Lemma check_tcp_service_latency_witness :
  let r := Bound.check_tcp_service Samples.world_connected
             (PStr "localhost") (PInt 22) (PInt 5) in
  dict_get r "status" = PStr "up"
  ∧ ∃ q, dict_get r "response_time_ms" = PFloat q ∧ (0 <= q)%Q.
Proof.
  destruct (check_tcp_service_latency Samples.world_connected
              (PStr "localhost") (PInt 22) (PInt 5)) as [Hup (q & Hq & Hpos)].
  split; [exact Hup|]. exists q. split; [exact Hq|].
  apply Hpos. vm_compute. discriminate.
Defined.

(** ** API checks *)

(** C5. An API definition with [expected_status] 200, checked against a
    server that answers 200 with a JSON body: the check is down, with the
    error text of the [NameError] that reading the global [requests]
    raises. The same holds of every API check, whatever the server
    answers. *)
Theorem api_check_is_always_down (w : World) :
  (∃ r, Bound.perform_check Samples.world_connected Samples.api_service_200
        = Ret (Bound.Result r)
        ∧ dict_get r "status" = PStr "down"
        ∧ dict_get r "error" = PStr "name 'requests' is not defined")
  ∧ ∀ url method expected_response timeout,
      let r := Bound.check_api_endpoint w url method expected_response timeout in
      dict_get r "status" = PStr "down"
      ∧ dict_get r "error" = PStr "name 'requests' is not defined".
Proof.
  split.
  - eexists. split; [reflexivity|].
    apply (check_api_endpoint_name_error Samples.world_connected).
  - intros. apply check_api_endpoint_name_error.
Qed.

(** ** The dispatcher *)

Section BoundDispatch.
Import Bound.
Context (w : World).

Lemma perform_check_unknown (service : Dict) :
  valid_type (effective_type service) = false ->
  perform_check w service = Ret (Result unknown_result).
Proof.
  unfold valid_type, effective_type, perform_check. intros H.
  destruct (py_eq _ (PStr "http")); [discriminate H|].
  destruct (py_eq _ (PStr "tcp")); [discriminate H|].
  destruct (py_eq _ (PStr "dns")); [discriminate H|].
  destruct (py_eq _ (PStr "api")); [discriminate H|].
  reflexivity.
Qed.

Lemma perform_check_http (service : Dict) (url : PyVal) :
  py_eq (effective_type service) (PStr "http") = true ->
  service !! "url" = Some url ->
  perform_check w service
  = Ret (Coroutine url (dict_get_default service "timeout" (PInt 10))
           (dict_get_default service "expected_status" (PInt 200)) (PInt 200)).
Proof.
  unfold effective_type, perform_check, dict_item. intros -> ->. reflexivity.
Qed.

End BoundDispatch.




(** ** The metrics cache *)

Section Cache.
Import Monitor.

Lemma cache_append_drop (buf : list Dict) (r : Dict) :
  (length buf <= 100)%nat ->
  cache_append buf r = drop (length (buf ++ [r]) - 100) (buf ++ [r]).
Proof.
  intros Hlen. unfold cache_append. rewrite length_app. cbn [length].
  destruct (Nat.ltb_spec 100 (length buf + 1)) as [Hgt|Hle].
  - replace (length buf + 1 - 100)%nat with 1%nat by lia. reflexivity.
  - replace (length buf + 1 - 100)%nat with 0%nat by lia. reflexivity.
Qed.

Lemma cache_append_length (buf : list Dict) (r : Dict) :
  (length buf <= 100)%nat -> (length (cache_append buf r) <= 100)%nat.
Proof.
  intros Hlen. rewrite cache_append_drop by assumption.
  rewrite length_drop, length_app. cbn [length]. lia.
Qed.

(* The buffer is always the last 100 of everything appended to it. *)
Lemma foldl_cache_append (rs : list Dict) : ∀ buf : list Dict,
  (length buf <= 100)%nat ->
  foldl cache_append buf rs = drop (length (buf ++ rs) - 100) (buf ++ rs).
Proof.
  induction rs as [|r rs IH]; intros buf Hlen.
  - rewrite app_nil_r. replace (length buf - 100)%nat with 0%nat by lia. reflexivity.
  - cbn [foldl]. rewrite IH by (now apply cache_append_length).
    rewrite cache_append_drop by assumption.
    replace (buf ++ r :: rs) with ((buf ++ [r]) ++ rs) by (now rewrite <- app_assoc).
    set (l := buf ++ [r]).
    assert (Hl : length l = S (length buf)) by (subst l; rewrite length_app; cbn; lia).
    rewrite <- drop_app_le by lia.
    rewrite drop_drop. f_equal.
    rewrite length_drop, !length_app. lia.
Qed.

Lemma record_all_insert (name : string) (rs : list Dict) :
  ∀ (m : gmap string (list Dict)) (buf : list Dict),
  m !! name = Some buf ->
  record_all name rs m = Ret (<[name := foldl cache_append buf rs]> m).
Proof.
  unfold record_all.
  induction rs as [|r rs IH]; intros m buf Hm.
  - cbn [foldl]. now rewrite insert_id.
  - cbn [foldl]. res_unfold. unfold cache_record at 2. rewrite Hm.
    rewrite (IH _ (cache_append buf r)) by (now rewrite lookup_insert_eq).
    now rewrite insert_insert_eq.
Qed.

Lemma cache_record_bounded (name : string) (res : Dict) (m m' : gmap string (list Dict)) :
  all_bounded m -> cache_record name res m = Ret m' -> all_bounded m'.
Proof.
  intros Hm. unfold cache_record.
  destruct (m !! name) as [buf|] eqn:Hbuf; [|discriminate].
  intros [= <-] k b. destruct (decide (k = name)) as [->|Hne].
  - rewrite lookup_insert_eq. intros [= <-].
    apply cache_append_length, (Hm name), Hbuf.
  - rewrite lookup_insert_ne by congruence. apply Hm.
Qed.

(* [__init__] gives every configured name an empty buffer. *)
Lemma init_metrics_empty (ss : list Dict) : ∀ m : gmap string (list Dict),
  init_metrics ss = Ret m -> ∀ k buf, m !! k = Some buf -> buf = [].
Proof.
  induction ss as [|s ss IH]; intros m; cbn [init_metrics]; res_unfold.
  - intros [= <-] k buf H. now rewrite lookup_empty in H.
  - destruct (dict_item s "name") as [name|e]; [|discriminate].
    destruct (metrics_key name) as [key|e]; [|discriminate].
    destruct (init_metrics ss) as [m0|e]; [|discriminate].
    intros [= <-] k buf. destruct (decide (k = key)) as [->|Hne].
    + rewrite lookup_insert_eq. congruence.
    + rewrite lookup_insert_ne by congruence. now apply IH.
Qed.

End Cache.

(* A property of the state that [m] and [k] preserve is preserved by
   [m ≫= k]. *)
Lemma bind_preserves {S A B} (P : S -> Prop) (m : StateExc S A) (k : A -> StateExc S B)
    (st : S) :
  (∀ s, P s -> P (m s).2) -> (∀ a s, P s -> P (k a s).2) -> P st -> P ((m ≫= k) st).2.
Proof.
  intros Hm Hk Hst. unfold mbind, StateExc_bind. specialize (Hm st Hst).
  destruct (m st) as [[a|e] s']; cbn in *; [apply Hk|]; assumption.
Qed.

Section CacheInLoops.
Import Database Monitor.

Lemma update_cache_bounded (name : PyVal) (res : Dict) (st : State) :
  bounded st -> bounded (update_cache name res st).2.
Proof.
  unfold bounded, update_cache, mbind, mret, StateExc_bind, StateExc_ret, gets,
    modify, lift_res.
  intros Hst. destruct (metrics_key name) as [k|e]; [|exact Hst].
  destruct (cache_record k res (metrics st)) as [m'|e] eqn:Hrec; [|exact Hst].
  cbn. eapply cache_record_bounded; eassumption.
Qed.

Lemma lift_db_bounded {A} (m : DbM A) (st : State) :
  bounded st -> bounded (lift_db m st).2.
Proof. unfold bounded, lift_db. destruct (m (db st)). intros H. exact H. Qed.

Lemma process_results_bounded (F : nat -> Faults) (xs : list (Dict * Dict)) :
  ∀ (i : nat) (st : State), bounded st -> bounded (process_results F i xs st).2.
Proof.
  induction xs as [|[service res] xs IH]; intros i st Hst; [exact Hst|].
  cbn [process_results].
  apply bind_preserves; [intros s Hs; exact Hs| |exact Hst]. intros name s Hs.
  apply bind_preserves; [intros s'; apply lift_db_bounded| |exact Hs]. intros _ s' Hs'.
  apply bind_preserves; [intros s''; apply update_cache_bounded| |exact Hs'].
  intros _ s'' Hs''. now apply IH.
Qed.

(* Every cycle of the asynchronous loop keeps the cache bounded. *)
Lemma run_cycle_bounded (W : nat -> World) (F : nat -> Faults) (st : State) :
  bounded st -> bounded (run_cycle W F st).2.
Proof.
  intros Hst. unfold run_cycle.
  apply bind_preserves; [intros s Hs; exact Hs| |exact Hst]. intros ss s Hs.
  apply bind_preserves; [intros s' Hs'; exact Hs'| |exact Hs]. intros results s' Hs'.
  now apply process_results_bounded.
Qed.

Lemma run_monitoring_loop_bounded (W : nat -> nat -> World) (F : nat -> nat -> Faults)
    (n : nat) : ∀ (k : nat) (st : State),
  bounded st -> bounded (run_monitoring_loop W F k n st).2.
Proof.
  induction n as [|n IH]; intros k st Hst; [exact Hst|].
  cbn [run_monitoring_loop].
  apply bind_preserves; [intros s; apply run_cycle_bounded| |exact Hst].
  intros _ s Hs. now apply IH.
Qed.

Context (check : nat -> Dict -> Res Dict) (alert_time : nat -> Z).

(* So does every pass of the synchronous loop. *)
Lemma monitor_service_bounded (i : nat) (service : Dict) (st : State) :
  bounded st -> bounded (monitor_service check alert_time i service st).2.
Proof.
  intros Hst. unfold monitor_service.
  apply bind_preserves; [intros s Hs; exact Hs| |exact Hst]. intros name s Hs.
  apply bind_preserves; [intros s' Hs'; exact Hs'| |exact Hs]. intros res s' Hs'.
  apply bind_preserves; [intros s''; apply update_cache_bounded| |exact Hs'].
  intros _ s'' Hs''.
  apply bind_preserves; [intros s3 Hs3; exact Hs3| |exact Hs'']. intros status s3 Hs3.
  destruct (_ && _); exact Hs3.
Qed.

Lemma monitor_services_bounded (ss : list Dict) : ∀ (i : nat) (st : State),
  bounded st -> bounded (monitor_services check alert_time i ss st).2.
Proof.
  induction ss as [|s ss IH]; intros i st Hst; [exact Hst|].
  cbn [monitor_services].
  apply bind_preserves; [intros s'; apply monitor_service_bounded| |exact Hst].
  intros _ s' Hs'. now apply IH.
Qed.

End CacheInLoops.

Lemma monitor_continuously_bounded (check : nat -> nat -> Dict -> Res Dict)
    (alert_time : nat -> nat -> Z) (n : nat) : ∀ (k : nat) (st : Monitor.State),
  bounded st -> bounded (Monitor.monitor_continuously check alert_time k n st).2.
Proof.
  induction n as [|n IH]; intros k st Hst; [exact Hst|].
  cbn [Monitor.monitor_continuously].
  apply bind_preserves; [|intros _ s Hs; now apply IH|exact Hst].
  intros s Hs. unfold Monitor.monitor_cycle.
  apply bind_preserves; [intros s' Hs'; exact Hs'| |exact Hs].
  intros ss s' Hs'. now apply monitor_services_bounded.
Qed.

(** C7. Once a service has a buffer of at most 100 entries (it starts
    empty), recording any sequence of results leaves a buffer of at most 100
    entries that holds the most recent ones in capture order, and leaves the
    buffers of the other services as they were; after 101 insertions into
    an empty buffer the first inserted entry is gone and the buffer is the
    100 later ones in capture order. *)
Theorem metrics_cache_bounded_fifo (name : string) (m : gmap string (list Dict))
    (buf0 rs : list Dict) :
  m !! name = Some buf0 ->
  (length buf0 <= 100)%nat ->
  ∃ m' buf,
    record_all name rs m = Ret m'
    ∧ m' !! name = Some buf
    ∧ (length buf <= 100)%nat
    ∧ buf = drop (length (buf0 ++ rs) - 100) (buf0 ++ rs)
    ∧ (∀ other, other ≠ name -> m' !! other = m !! other)
    ∧ (∀ first rest, buf0 = [] -> rs = first :: rest -> length rest = 100%nat ->
                     buf = rest).
Proof.
  intros Hm Hlen.
  exists (<[name := foldl Monitor.cache_append buf0 rs]> m),
         (foldl Monitor.cache_append buf0 rs).
  split; [now apply record_all_insert|].
  split; [apply lookup_insert_eq|].
  rewrite foldl_cache_append by assumption.
  split; [rewrite length_drop; lia|].
  split; [reflexivity|].
  split; [intros other Hne; now apply lookup_insert_ne|].
  intros first rest -> -> Hrest. cbn [app length].
  rewrite Hrest. reflexivity.
Qed.

Lemma metrics_cache_bounded_fifo_witness :
  ∃ m' buf,
    record_all "ssh" Samples.results_101 {[ "ssh" := [] ]} = Ret m'
    ∧ m' !! "ssh" = Some buf
    ∧ (length buf <= 100)%nat
    ∧ buf = drop 1 Samples.results_101
    ∧ head Samples.results_101 = Some (Samples.numbered 0)
    ∧ Samples.numbered 0 ∉ buf.
Proof.
  destruct (metrics_cache_bounded_fifo "ssh" {[ "ssh" := [] ]} [] Samples.results_101)
    as (m' & buf & Hrec & Hlook & Hlen & Hbuf & _ & _).
  - apply lookup_singleton_eq.
  - cbn. lia.
  - exists m', buf. split; [exact Hrec|]. split; [exact Hlook|].
    split; [exact Hlen|]. split; [exact Hbuf|]. split; [reflexivity|].
    rewrite Hbuf. apply (bool_decide_eq_false_1 (Samples.numbered 0 ∈ drop 1 Samples.results_101)).
    vm_compute. reflexivity.
Defined.

(** ** Alerts *)

Ltac state_unfold :=
  unfold mbind, mret, StateExc_bind, StateExc_ret, gets, modify, raise, lift_res in *;
  cbn beta iota.

(* A component of the state that neither [m] nor [k] changes is not
   changed by [m ≫= k]. *)
Lemma bind_keeps {S A B C} (f : S -> C) (m : StateExc S A) (k : A -> StateExc S B) (st : S) :
  (∀ s, f (m s).2 = f s) -> (∀ a s, f (k a s).2 = f s) -> f ((m ≫= k) st).2 = f st.
Proof.
  intros Hm Hk. unfold mbind, StateExc_bind. specialize (Hm st).
  destruct (m st) as [[a|e] s']; cbn in *; [rewrite Hk|]; assumption.
Qed.

Section Alerts.
Import Database Monitor.

Context (check : nat -> Dict -> Res Dict) (alert_time : nat -> Z).

(* The synchronous loop raises exactly one alert for a down result of an
   alert-eligible service: kind DOWN, with the error text of the result. *)
Lemma monitor_service_alerts_down (i : nat) (service res : Dict) (st : State)
    (k : string) (buf : list Dict) :
  service !! "name" = Some (PStr k) ->
  check i service = Ret res ->
  metrics st !! k = Some buf ->
  res !! "status" = Some (PStr "down") ->
  py_truthy (dict_get service "alert_on_failure") = true ->
  ∃ st', monitor_service check alert_time i service st = (Ret tt, st')
         ∧ alerts st' = alerts st ++
             [ {[ "timestamp" := PDatetime (alert_time i);
                  "message" := PStr ("ALERT: " +:+ k +:+ " is DOWN. Detail: "
                     +:+ py_str (py_or (dict_get res "error_message")
                                       (dict_get res "error"))) ]} ].
Proof.
  intros Hname Hcheck Hbuf Hstatus Halert.
  unfold monitor_service, update_cache, send_alert, dict_item, cache_record.
  state_unfold. rewrite Hname, Hcheck. cbn [metrics_key]. rewrite Hbuf, Hstatus.
  cbn [py_eq String.eqb Ascii.eqb Bool.eqb andb]. rewrite Halert.
  eexists. split; reflexivity.
Qed.

End Alerts.

(** ** The loop of the bound class *)

Section BoundLoop.
Import Bound.
Context (W : nat -> World) (alert_time : nat -> Z).


(* The body of the loop on a service whose check returned a coroutine. *)
Lemma monitor_service_coroutine (i : nat) (service : Dict) (st : State)
    (k : string) (buf : list Returned) (a b c d : PyVal) :
  service !! "name" = Some (PStr k) ->
  perform_check (W i) service = Ret (Coroutine a b c d) ->
  metrics st !! k = Some buf ->
  monitor_service W alert_time i service st
  = (Raise (mkExc TypeError "'coroutine' object is not subscriptable"),
     mkState (services st) (<[k := cache_append buf (Coroutine a b c d)]> (metrics st))
       (alerts st)).
Proof.
  intros Hname Hcheck Hbuf.
  unfold monitor_service, update_cache, dict_item, item.
  state_unfold. rewrite Hname, Hcheck. cbn [Monitor.metrics_key]. rewrite Hbuf.
  reflexivity.
Qed.

(* The body of the loop on a service whose check raised. *)
Lemma monitor_service_raised (i : nat) (service : Dict) (st : State) (name : PyVal)
    (e : PyExc) :
  service !! "name" = Some name ->
  perform_check (W i) service = Raise e ->
  monitor_service W alert_time i service st = (Raise e, st).
Proof.
  intros Hname Hcheck. unfold monitor_service, dict_item.
  state_unfold. rewrite Hname, Hcheck. reflexivity.
Qed.

Lemma monitor_services_app (pre post : list Dict) : ∀ (i : nat) (st : State),
  monitor_services W alert_time i (pre ++ post) st
  = match monitor_services W alert_time i pre st with
    | (Ret _, st') => monitor_services W alert_time (i + length pre) post st'
    | (Raise e, st') => (Raise e, st')
    end.
Proof.
  induction pre as [|s pre IH]; intros i st; cbn [app monitor_services length].
  - state_unfold. now rewrite Nat.add_0_r.
  - state_unfold. destruct (monitor_service W alert_time i s st) as [[[]|e] st1];
      [|reflexivity].
    rewrite IH. now replace (i + S (length pre))%nat with (S i + length pre)%nat by lia.
Qed.

End BoundLoop.



(** C10. A definition of type http, the default type: [perform_check]
    returns the coroutine object of [check_http_service], not awaited, which
    has no status at all, and the loop raises [TypeError] when it reads
    [res['status']]. The definitions of a type outside the four do get the
    result with status [unknown] and error [Unknown type]. *)
Theorem http_check_returns_coroutine (w : World) :
  Bound.perform_check w Samples.site_service
  = Ret (Bound.Coroutine (PStr "https://example.com") (PInt 10) (PInt 200) (PInt 200))
  ∧ (∀ t, (Bound.monitor_service (fun _ => w) t 0 Samples.site_service
             Samples.site_checker).1
          = Raise (mkExc TypeError "'coroutine' object is not subscriptable"))
  ∧ (∀ service, valid_type (effective_type service) = false ->
       Bound.perform_check w service = Ret (Bound.Result unknown_result)).
Proof.
  split; [reflexivity|]. split.
  - intros t.
    now rewrite (monitor_service_coroutine (fun _ => w) t 0 Samples.site_service
                   Samples.site_checker "site" []
                   (PStr "https://example.com") (PInt 10) (PInt 200) (PInt 200)
                   eq_refl eq_refl eq_refl).
  - apply perform_check_unknown.
Qed.

(** ** Connections of the result store *)

Section Connections.
Import Database.

(* [log_check] closes what it opened, whatever fails. *)
Lemma log_check_releases (f : Faults) (result : Dict) (name type : PyVal) (d : Db) :
  open_connections (log_check f result name type d).2 = open_connections d.
Proof.
  unfold log_check, _get_connection, try_finally, execute_insert, commit, close, fault.
  state_unfold.
  destruct (connect_fault f); [reflexivity|].
  destruct (execute_fault f); [reflexivity|].
  match goal with |- context [if ?b then _ else _] => destruct b end; [|reflexivity].
  destruct (commit_fault f); reflexivity.
Qed.

Lemma get_history_releases (f : Faults) (name : PyVal) (limit : Z) (d : Db) :
  execute_fault f = None ->
  open_connections (get_history f name limit d).2 = open_connections d.
Proof.
  intros He. unfold get_history, _get_connection, close, fault. state_unfold.
  rewrite He. destruct (connect_fault f); reflexivity.
Qed.

(* A failing query leaves the connection of [get_history] and of
   [get_uptime_stats] open. *)
Lemma get_history_leaks (f : Faults) (name : PyVal) (limit : Z) (d : Db) (e : PyExc) :
  connect_fault f = None -> execute_fault f = Some e ->
  get_history f name limit d
  = (Raise e, mkDb (service_checks d) (S (open_connections d)) (db_now d)).
Proof.
  intros Hc He. unfold get_history, _get_connection, close, fault. state_unfold.
  now rewrite Hc, He.
Qed.

Lemma get_uptime_stats_leaks (f : Faults) (name : PyVal) (hours : Z) (d : Db) (e : PyExc) :
  connect_fault f = None -> execute_fault f = Some e ->
  get_uptime_stats f name hours d
  = (Raise e, mkDb (service_checks d) (S (open_connections d)) (db_now d)).
Proof.
  intros Hc He. unfold get_uptime_stats, _get_connection, close, fault. state_unfold.
  now rewrite Hc, He.
Qed.

End Connections.

(** C9 (the code departs from the claim). When the SELECT raises (here
    "database is locked"), [get_history] and [get_uptime_stats] propagate the
    exception with their connection still open, where [log_check], under the
    same fault, closes its connection in its [finally] clause. *)
Theorem queries_leak_connection_on_failure :
  let d := Samples.empty_db in
  let e := mkExc DatabaseError "database is locked" in
  Database.open_connections d = 0%nat
  ∧ (let '(outcome, d') := Database.get_history Samples.locked (PStr "web") 1 d in
     outcome = Raise e ∧ Database.open_connections d' = 1%nat)
  ∧ (let '(outcome, d') := Database.get_uptime_stats Samples.locked (PStr "web") 24 d in
     outcome = Raise e ∧ Database.open_connections d' = 1%nat)
  ∧ (let '(outcome, d') :=
       Database.log_check Samples.locked unknown_result (PStr "web") (PStr "http") d in
     outcome = Raise e ∧ Database.open_connections d' = 0%nat).
Proof. vm_compute. repeat split; reflexivity. Qed.

(** ** Uptime statistics *)

Section Uptime.
Import Database.

Lemma sum_up_count (rs : list Row) :
  foldr (fun r acc => (if is_up r then 1 else 0) + acc) 0 rs = Z.of_nat (count_up rs).
Proof.
  unfold count_up. induction rs as [|r rs IH]; [reflexivity|].
  cbn [foldr List.filter]. rewrite IH. destruct (is_up r); cbn [length]; lia.
Qed.

Lemma count_up_le (rs : list Row) : (count_up rs <= length rs)%nat.
Proof. unfold count_up. apply List.filter_length_le. Qed.

(* [row[0] or 0] and [row[1] or 0] on the aggregates of the query. *)
Lemma total_of_count (rs : list Row) :
  int_of (py_or (sql_count rs) (PInt 0)) = Z.of_nat (length rs).
Proof.
  unfold sql_count, py_or, py_truthy.
  destruct (Z.eqb_spec (Z.of_nat (length rs)) 0) as [H|H]; cbn [negb int_of]; lia.
Qed.

Lemma success_of_sum (rs : list Row) :
  int_of (py_or (sql_sum_up rs) (PInt 0)) = Z.of_nat (count_up rs).
Proof.
  unfold sql_sum_up. destruct rs as [|r rs]; [reflexivity|].
  rewrite sum_up_count. unfold py_or, py_truthy.
  destruct (Z.eqb_spec (Z.of_nat (count_up (r :: rs))) 0) as [H|H];
    cbn [negb int_of]; lia.
Qed.

End Uptime.

(** C6, counterexample. With 25 checks of a service in the window, 7 of
    them up, [get_uptime_stats] reports 25 checks and an [uptime_percent] of
    28.000000000000004 (the double 0x1.c000000000001p+4), which is not
    100*7/25 = 28. *)
Lemma uptime_7_of_25_is_not_28 :
  let rs := Database.window_rows (PStr "web") 24 Samples.db_7_of_25 in
  length rs = 25%nat ∧ count_up rs = 7%nat
  ∧ ∃ st, (Database.get_uptime_stats Database.no_faults (PStr "web") 24
             Samples.db_7_of_25).1 = Ret st
          ∧ Database.total_checks st = 25
          ∧ Database.uptime_percent st = 0x1.c000000000001p+4%float
          ∧ PrimFloat.eqb (Database.uptime_percent st) 28%float = false
          ∧ ∃ v, float_value (Database.uptime_percent st) = Some v
                 ∧ ¬ (v == 100 * 7 / 25)%Q.
Proof.
  intros rs. subst rs.
  split; [vm_compute; reflexivity|]. split; [vm_compute; reflexivity|].
  eexists. split; [vm_compute; reflexivity|].
  split; [reflexivity|]. split; [vm_compute; reflexivity|].
  split; [vm_compute; reflexivity|].
  eexists. split; [vm_compute; reflexivity|].
  intros H. vm_compute in H. discriminate H.
Qed.

(** C6, amended. When the query succeeds, [get_uptime_stats] leaves the
    store as it found it and returns [total_checks = N], the number of rows of
    the service in the window, and [uptime_percent = 0.0] when [N = 0],
    otherwise the binary64 value of [(S / N) * 100] for the [S] rows that are
    up: 100*S/N up to the rounding of the division and of the product. *)
Theorem get_uptime_stats_value (name : PyVal) (hours : Z) (d : Database.Db) :
  let rs := Database.window_rows name hours d in
  let N := Z.of_nat (length rs) in
  let S := Z.of_nat (count_up rs) in
  ∃ st, Database.get_uptime_stats Database.no_faults name hours d = (Ret st, d)
        ∧ Database.total_checks st = N
        ∧ Database.uptime_percent st
          = (if N =? 0 then PrimFloat.zero
             else PrimFloat.mul
                    (PrimFloat.div (Database.float_of_Z S) (Database.float_of_Z N))
                    (Database.float_of_Z 100)).
Proof.
  destruct d as [rows conns clock]. intros rs N S.
  assert (Hrs : ∀ c, Database.window_rows name hours (Database.mkDb rows c clock) = rs)
    by reflexivity.
  unfold Database.get_uptime_stats, Database._get_connection, Database.close,
    Database.fault, Database.no_faults.
  state_unfold. cbn [Database.connect_fault Database.execute_fault].
  rewrite Hrs, total_of_count, success_of_sum. fold N S.
  cbn [Database.service_checks Database.open_connections Database.db_now Nat.pred].
  eexists. split; [reflexivity|]. cbn [Database.total_checks Database.uptime_percent].
  split; [reflexivity|].
  destruct (Z.eqb_spec N 0) as [H0|H0].
  - replace (0 <? N) with false by (symmetry; apply Z.ltb_ge; lia).
    reflexivity.
  - replace (0 <? N) with true by (symmetry; apply Z.ltb_lt; subst N; lia).
    reflexivity.
Qed.

(** * Further properties of the checks *)

(** X2. When the request of an HTTP check raises, the result is down with
    latency 0, [ssl_valid] false and no status code, and the error message is
    "Request Error: <text>" for an [httpx.RequestError] and the bare text
    of any other exception. *)
Theorem check_http_service_failure (w : World) (url timeout expected : PyVal) (e : PyExc) :
  http_get w url timeout = Raise e ->
  let r := Checker.check_http_service w url timeout expected in
  dict_get r "status" = PStr "down"
  ∧ r !! "status_code" = None
  ∧ dict_get r "ssl_valid" = PBool false
  ∧ dict_get r "response_time_ms" = PInt 0
  ∧ dict_get r "error_message"
    = PStr (if decide (exc_class e = RequestError)
            then "Request Error: " +:+ exc_str e else exc_str e).
Proof.
  intros Hget r. subst r. unfold Checker.check_http_service. res_unfold.
  rewrite Hget. destruct (decide _); repeat split; dict_solve.
Qed.

Lemma check_http_service_failure_witness :
  let r := Checker.check_http_service Samples.world_refused
             (PStr "https://example.com") (PInt 10) (PInt 200) in
  dict_get r "status" = PStr "down"
  ∧ dict_get r "error_message" = PStr "[Errno 111] Connection refused".
Proof.
  destruct (check_http_service_failure Samples.world_refused
              (PStr "https://example.com") (PInt 10) (PInt 200) Samples.unreachable
              eq_refl) as (Hs & _ & _ & _ & He).
  split; [exact Hs | exact He].
Defined.

(** X3. Called with a non-empty [expected_ip], as the unit test calls it,
    the DNS check of a name that resolves is up exactly when [expected_ip] is
    among the resolved addresses, and otherwise is down with an error that
    names the expected address and the resolved list; an empty
    [expected_ip] is treated as none given. *)
Theorem dns_check_compares_expected_ip (w : World) (domain : PyVal) (ip : string)
    (ips : list string) :
  dns_resolve w domain = Ret ips ->
  let r := Checker.check_dns_resolution w domain (Some ip) in
  dict_get r "ips" = PStrList ips
  ∧ (dict_get r "status" = PStr "up" <-> ip = "" ∨ ip ∈ ips)
  ∧ (ip ≠ "" -> ip ∉ ips ->
     dict_get r "status" = PStr "down"
     ∧ dict_get r "error"
       = PStr ("IP mismatch. Expected " +:+ ip +:+ ", got " +:+ repr_str_list ips)).
Proof.
  intros Hres r. subst r. unfold Checker.check_dns_resolution. res_unfold.
  rewrite Hres. cbn [default].
  destruct (String.eqb_spec ip "") as [->|Hne]; cbn [negb andb].
  - split; [dict_solve|]. split; [|intros H; now destruct H].
    split; [intros _; now left | intros _; dict_solve].
  - destruct (decide (ip ∈ ips)) as [Hin|Hnin].
    + rewrite bool_decide_eq_true_2 by assumption. cbn [negb].
      split; [dict_solve|]. split; [|intros _ H; now destruct H].
      split; [intros _; now right | intros _; dict_solve].
    + rewrite bool_decide_eq_false_2 by assumption. cbn [negb].
      split; [dict_solve|]. split.
      * split; [intros H; exfalso; revert H; dict_solve | intros [H|H]; contradiction].
      * intros _ _. split; dict_solve.
Qed.

Lemma dns_check_compares_expected_ip_witness :
  let r := Checker.check_dns_resolution Samples.world_connected
             (PStr "example.com") (Some "9.9.9.9") in
  dict_get r "status" = PStr "down"
  ∧ dict_get r "error" = PStr "IP mismatch. Expected 9.9.9.9, got ['5.6.7.8']".
Proof.
  destruct (dns_check_compares_expected_ip Samples.world_connected
              (PStr "example.com") "9.9.9.9" ["5.6.7.8"] eq_refl) as (_ & _ & H).
  apply H; [discriminate|].
  apply (bool_decide_eq_false_1 ("9.9.9.9" ∈ ["5.6.7.8"])). reflexivity.
Defined.

(** * Further properties of the result store *)

Section Store.
Import Database.

Lemma py_eq_refl (v : PyVal) : py_eq v v = true.
Proof.
  destruct v as [|b|z|q|s|l|t]; cbn.
  - reflexivity.
  - destruct b; reflexivity.
  - apply Qeq_bool_iff. reflexivity.
  - apply Qeq_bool_iff. reflexivity.
  - apply String.eqb_refl.
  - now apply bool_decide_eq_true_2.
  - apply Z.eqb_refl.
Qed.

Lemma db_eta (d : Db) : mkDb (service_checks d) (open_connections d) (db_now d) = d.
Proof. now destruct d. Qed.

(* What [log_check] does, by whether the engine lets the INSERT through. *)
Lemma log_check_accepted (f : Faults) (result : Dict) (name type : PyVal) (d : Db) :
  log_accepted f result name type = true ->
  log_check f result name type d
  = (Ret tt, mkDb (service_checks d
                   ++ [logged_row (length (service_checks d)) result name type])
               (open_connections d) (db_now d)).
Proof.
  unfold log_accepted. intros H.
  repeat (apply andb_prop in H; destruct H as [H ?]).
  repeat match goal with Hb : bool_decide _ = true |- _ =>
    apply bool_decide_eq_true_1 in Hb end.
  unfold log_check, _get_connection, try_finally, execute_insert, commit, close, fault.
  state_unfold.
  repeat match goal with Hf : _ f = None |- _ => rewrite Hf; clear Hf end.
  cbn [col_service_name col_service_type col_status].
  repeat match goal with Hn : not_null _ = true |- _ => rewrite Hn; clear Hn end.
  reflexivity.
Qed.

Lemma log_check_refused (f : Faults) (result : Dict) (name type : PyVal) (d : Db) :
  log_accepted f result name type = false ->
  ∃ e, log_check f result name type d = (Raise e, d).
Proof.
  unfold log_accepted, log_check, _get_connection, try_finally, execute_insert,
    commit, close, fault.
  state_unfold. cbn [col_service_name col_service_type col_status].
  destruct (connect_fault f) as [e|]; [intros _; now exists e|].
  destruct (execute_fault f) as [e|];
    [intros _; exists e; cbn; now rewrite db_eta|].
  destruct (not_null name); cbn [andb];
    [|intros _; eexists; cbn; now rewrite db_eta].
  destruct (not_null type); cbn [andb];
    [|rewrite andb_false_r; intros _; eexists; cbn; now rewrite db_eta].
  destruct (not_null (dict_get result "status")); cbn [andb];
    [|rewrite andb_false_r; intros _; eexists; cbn; now rewrite db_eta].
  destruct (commit_fault f) as [e|];
    [intros _; exists e; cbn; now rewrite db_eta|].
  intros H. exfalso. revert H.
  rewrite !bool_decide_eq_true_2 by reflexivity. discriminate.
Qed.

Lemma get_history_run (f : Faults) (name : PyVal) (limit : Z) (d : Db) :
  connect_fault f = None -> execute_fault f = None ->
  get_history f name limit d = (Ret (select_history name limit (service_checks d)), d).
Proof.
  intros Hc He. unfold get_history, _get_connection, close, fault. state_unfold.
  rewrite Hc, He. cbn. now rewrite db_eta.
Qed.

(* The outcome of [get_uptime_stats] is a function of the rows of the
   service in the window. *)
Lemma get_uptime_stats_window (f : Faults) (name : PyVal) (hours : Z) (d d' : Db) :
  window_rows name hours d' = window_rows name hours d ->
  (get_uptime_stats f name hours d').1 = (get_uptime_stats f name hours d).1.
Proof.
  intros Hw. unfold get_uptime_stats, _get_connection, close, fault. state_unfold.
  destruct (connect_fault f); [reflexivity|].
  destruct (execute_fault f); [reflexivity|].
  unfold window_rows in *. cbn [service_checks db_now fst] in *.
  rewrite Hw. reflexivity.
Qed.

Lemma get_uptime_stats_total (name : PyVal) (hours : Z) (d : Db) :
  ∃ st, get_uptime_stats no_faults name hours d = (Ret st, d)
        ∧ total_checks st = Z.of_nat (length (window_rows name hours d)).
Proof.
  unfold get_uptime_stats, _get_connection, close, fault, no_faults. state_unfold.
  cbn [connect_fault execute_fault].
  assert (Hw : ∀ c, window_rows name hours (mkDb (service_checks d) c (db_now d))
                    = window_rows name hours d) by reflexivity.
  rewrite Hw, total_of_count.
  cbn [service_checks open_connections db_now Nat.pred]. rewrite db_eta.
  eexists. split; reflexivity.
Qed.

Global Instance newer_first_total : Total newer_first.
Proof.
  intros a b. unfold newer_first.
  destruct (col_timestamp a), (col_timestamp b); cbn; auto.
  destruct (Z.leb_spec t0 t); [now left|]. right. apply Z.leb_le. lia.
Qed.

Lemma Sorted_take {A} (R : relation A) (n : nat) : ∀ l : list A,
  Sorted R l -> Sorted R (take n l).
Proof.
  induction n as [|n IH]; intros [|x l] Hs; cbn; try constructor.
  - apply IH. now inversion Hs.
  - inversion Hs as [|? ? _ Hhd]; subst.
    destruct l as [|y l]; [destruct n; constructor|].
    destruct n; cbn; constructor. now inversion Hhd.
Qed.

(* A sorted list is strongly sorted when the order is transitive on its
   elements. *)
Lemma Sorted_strongly_on {A} (R : relation A) (P : A -> Prop) :
  (∀ x y z, P x -> P y -> P z -> R x y -> R y z -> R x z) ->
  ∀ l, Forall P l -> Sorted R l -> StronglySorted R l.
Proof.
  intros Htrans. induction l as [|x l IH]; intros HP Hs; [constructor|].
  inversion HP as [|? ? Px Pl]; subst. inversion Hs as [|? ? Hsl Hhd]; subst.
  specialize (IH Pl Hsl). constructor; [exact IH|].
  destruct l as [|y l]; [constructor|].
  inversion Hhd as [|? ? Rxy]; subst. constructor; [exact Rxy|].
  inversion IH as [|? ? _ Hall]; subst.
  inversion Pl as [|? ? Py Pl']; subst.
  rewrite Forall_forall in Hall, Pl'. apply Forall_forall. intros z Hz.
  apply (Htrans x y z); auto.
Qed.

End Store.

(** X5. [log_check] is all or nothing. When the connection, the INSERT and
    the commit succeed and the name, the type and the status of the result
    are not null, it appends exactly one row: the next id, the fields of the
    result, and [error_message or error] as the error message. In every other
    case it raises and the table is as before. Either way no connection is
    left open. *)
Theorem log_check_all_or_nothing (f : Database.Faults) (result : Dict) (name type : PyVal)
    (d : Database.Db) :
  let out := Database.log_check f result name type d in
  Database.open_connections out.2 = Database.open_connections d
  ∧ if log_accepted f result name type
    then out.1 = Ret tt
         ∧ Database.service_checks out.2
           = Database.service_checks d
             ++ [logged_row (length (Database.service_checks d)) result name type]
    else (∃ e, out.1 = Raise e)
         ∧ Database.service_checks out.2 = Database.service_checks d.
Proof.
  intros out. subst out.
  destruct (log_accepted f result name type) eqn:Hacc.
  - rewrite (log_check_accepted _ _ _ _ _ Hacc). cbn. auto.
  - destruct (log_check_refused _ _ _ _ d Hacc) as [e ->]. cbn. eauto.
Qed.

(** X6. When the query succeeds, [get_history] leaves the store as it
    found it and returns rows of the named service only, the newest first,
    at most [limit] of them for a non-negative [limit], and all of them when
    [limit] is negative or not smaller than their number. *)
Theorem get_history_rows (f : Database.Faults) (name : PyVal) (limit : Z) (d : Database.Db) :
  Database.connect_fault f = None ->
  Database.execute_fault f = None ->
  ∃ rows, Database.get_history f name limit d = (Ret rows, d)
          ∧ (∀ r, r ∈ rows -> r ∈ rows_of name d)
          ∧ Sorted Database.newer_first rows
          ∧ (0 <= limit -> (length rows <= Z.to_nat limit)%nat)
          ∧ (limit < 0 ∨ (length (rows_of name d) <= Z.to_nat limit)%nat ->
             rows ≡ₚ rows_of name d).
Proof.
  intros Hc He. rewrite (get_history_run _ _ _ _ Hc He).
  eexists. split; [reflexivity|].
  unfold Database.select_history. fold (rows_of name d).
  set (sorted := merge_sort Database.newer_first (rows_of name d)).
  assert (Hperm : sorted ≡ₚ rows_of name d) by apply merge_sort_Permutation.
  assert (Hsorted : Sorted Database.newer_first sorted)
    by (apply Sorted_merge_sort; apply _).
  destruct (Z.ltb_spec limit 0) as [Hneg|Hpos].
  - split; [intros r Hr; now rewrite <- Hperm|]. split; [exact Hsorted|].
    split; [lia|]. intros _. exact Hperm.
  - split; [intros r Hr; rewrite <- Hperm, <- (take_drop (Z.to_nat limit) sorted);
            apply elem_of_app; now left|].
    split; [now apply Sorted_take|].
    split; [intros _; rewrite length_take; lia|].
    intros [Hlt|Hlen]; [lia|].
    rewrite take_ge; [exact Hperm|]. now rewrite Hperm.
Qed.

Lemma get_history_rows_witness :
  ∃ rows, Database.get_history Database.no_faults (PStr "web") 3 Samples.db_7_of_25
          = (Ret rows, Samples.db_7_of_25)
          ∧ (length rows <= 3)%nat.
Proof.
  destruct (get_history_rows Database.no_faults (PStr "web") 3 Samples.db_7_of_25
              eq_refl eq_refl) as (rows & Hrun & _ & _ & Hlen & _).
  exists rows. split; [exact Hrun|]. apply Hlen. lia.
Defined.

(** X7. A logged result is what [get_history(name, 1)] returns next: when
    [log_check] stores a result whose timestamp is later than that of every
    stored row of the service (rows without a timestamp aside), a following
    [get_history] with limit 1 returns exactly the stored row. *)
Theorem log_check_then_get_history (f f' : Database.Faults) (result : Dict)
    (name type : PyVal) (d : Database.Db) (t : Z) :
  log_accepted f result name type = true ->
  dict_get result "timestamp" = PDatetime t ->
  (∀ r, r ∈ rows_of name d -> stamp_before t (Database.col_timestamp r)) ->
  Database.connect_fault f' = None ->
  Database.execute_fault f' = None ->
  let d' := (Database.log_check f result name type d).2 in
  (Database.get_history f' name 1 d').1
  = Ret [logged_row (length (Database.service_checks d)) result name type].
Proof.
  intros Hacc Hts Hold Hc He d'. subst d'.
  rewrite (log_check_accepted _ _ _ _ _ Hacc). cbn [snd].
  rewrite (get_history_run _ _ _ _ Hc He). cbn [fst]. f_equal.
  unfold Database.select_history. cbn [Database.service_checks].
  set (new := logged_row (length (Database.service_checks d)) result name type).
  rewrite List.filter_app. fold (rows_of name d). cbn [List.filter].
  replace (py_eq (Database.col_service_name new) name) with true
    by (symmetry; apply py_eq_refl).
  change (1 <? 0) with false. cbn iota. change (Z.to_nat 1) with 1%nat.
  set (l := merge_sort Database.newer_first (rows_of name d ++ [new])).
  assert (Hperm : l ≡ₚ rows_of name d ++ [new]) by apply merge_sort_Permutation.
  assert (Hsorted : Sorted Database.newer_first l)
    by (apply Sorted_merge_sort; apply _).
  set (P := fun r : Database.Row =>
              Database.col_timestamp r = PNone ∨ ∃ u, Database.col_timestamp r = PDatetime u).
  assert (HP : Forall P l).
  { apply Forall_forall. intros r Hr. rewrite Hperm in Hr.
    apply elem_of_app in Hr as [Hr|Hr].
    - destruct (Hold r Hr) as [H|(u & H & _)]; [now left | right; eauto].
    - apply list_elem_of_singleton in Hr as ->. right. exists t. exact Hts. }
  assert (Hstrong : StronglySorted Database.newer_first l).
  { apply (Sorted_strongly_on _ P); [|exact HP|exact Hsorted].
    unfold P, Database.newer_first. intros x y z [Hx|[a Hx]] [Hy|[b Hy]] [Hz|[c Hz]];
      rewrite Hx, Hy, Hz; cbn; intros H1 H2; try reflexivity; try discriminate.
    apply Z.leb_le. apply Z.leb_le in H1, H2. lia. }
  assert (Hnew : new ∈ l) by (rewrite Hperm; apply elem_of_app; right; constructor).
  destruct l as [|h tl]; [now apply elem_of_nil in Hnew|].
  cbn [take]. f_equal.
  apply elem_of_cons in Hnew as [Hnew|Hnew]; [now symmetry|].
  assert (Hh : h ∈ rows_of name d ++ [new]) by (rewrite <- Hperm; constructor).
  apply elem_of_app in Hh as [Hh|Hh];
    [|now apply list_elem_of_singleton in Hh].
  exfalso.
  inversion Hstrong as [|? ? _ Hall]; subst.
  rewrite Forall_forall in Hall. specialize (Hall new Hnew).
  unfold Database.newer_first in Hall.
  change (Database.col_timestamp new) with (dict_get result "timestamp") in Hall.
  rewrite Hts in Hall.
  destruct (Hold h Hh) as [H0|(u & H0 & Hlt)]; rewrite H0 in Hall; cbn in Hall;
    [discriminate|].
  apply Z.leb_le in Hall. lia.
Qed.

Lemma log_check_then_get_history_witness :
  let result := Checker.check_tcp_service Samples.world_refused
                  (PStr "localhost") (PInt 22) (PInt 5) in
  let d' := (Database.log_check Database.no_faults result (PStr "ssh") (PStr "tcp")
               Samples.empty_db).2 in
  (Database.get_history Database.no_faults (PStr "ssh") 1 d').1
  = Ret [logged_row 0 result (PStr "ssh") (PStr "tcp")].
Proof.
  apply (log_check_then_get_history Database.no_faults Database.no_faults
           (Checker.check_tcp_service Samples.world_refused
              (PStr "localhost") (PInt 22) (PInt 5))
           (PStr "ssh") (PStr "tcp") Samples.empty_db 1700000000).
  - vm_compute. reflexivity.
  - vm_compute. reflexivity.
  - intros r Hr. vm_compute in Hr. now apply elem_of_nil in Hr.
  - reflexivity.
  - reflexivity.
Defined.

Section StoreQueries.
Import Database.

Lemma get_history_select (f : Faults) (name : PyVal) (limit : Z) (d d' : Db) :
  select_history name limit (service_checks d')
  = select_history name limit (service_checks d) ->
  (get_history f name limit d').1 = (get_history f name limit d).1.
Proof.
  intros Hs. unfold get_history, _get_connection, close, fault. state_unfold.
  destruct (connect_fault f); [reflexivity|].
  destruct (execute_fault f); [reflexivity|].
  cbn [service_checks fst] in *. rewrite Hs. reflexivity.
Qed.

(* The table after [log_check]: as before, or with the logged row added. *)
Lemma log_check_table (f : Faults) (result : Dict) (name type : PyVal) (d : Db) :
  let d' := (log_check f result name type d).2 in
  db_now d' = db_now d
  ∧ (service_checks d' = service_checks d
     ∨ service_checks d'
       = service_checks d ++ [logged_row (length (service_checks d)) result name type]).
Proof.
  intros d'. subst d'. destruct (log_accepted f result name type) eqn:Hacc.
  - rewrite (log_check_accepted _ _ _ _ _ Hacc). cbn. auto.
  - destruct (log_check_refused _ _ _ _ d Hacc) as [e ->]. cbn. auto.
Qed.

End StoreQueries.

(** X8. A result without a timestamp, such as the one [perform_check]
    returns for an unknown type, is stored with a NULL timestamp and never
    counts in the uptime statistics of any service over any window. *)
Theorem log_check_without_timestamp (f f' : Database.Faults) (result : Dict)
    (name type name' : PyVal) (hours : Z) (d : Database.Db) :
  dict_get result "timestamp" = PNone ->
  let d' := (Database.log_check f result name type d).2 in
  (Database.get_uptime_stats f' name' hours d').1
  = (Database.get_uptime_stats f' name' hours d).1.
Proof.
  intros Hts d'. apply get_uptime_stats_window.
  destruct (log_check_table f result name type d) as [Hnow [Hrows|Hrows]];
    fold d' in Hnow, Hrows; unfold Database.window_rows; rewrite Hnow, Hrows;
    [reflexivity|].
  rewrite List.filter_app. cbn [List.filter logged_row Database.col_timestamp].
  rewrite Hts. cbn [Database.in_window]. rewrite andb_false_r. apply app_nil_r.
Qed.

Lemma log_check_without_timestamp_witness :
  let d' := (Database.log_check Database.no_faults unknown_result (PStr "files")
               (PStr "ftp") Samples.empty_db).2 in
  length (Database.service_checks d') = 1%nat
  ∧ (Database.get_uptime_stats Database.no_faults (PStr "files") 24 d').1
    = (Database.get_uptime_stats Database.no_faults (PStr "files") 24 Samples.empty_db).1.
Proof.
  split; [vm_compute; reflexivity|].
  apply (log_check_without_timestamp Database.no_faults Database.no_faults
           unknown_result (PStr "files") (PStr "ftp") (PStr "files") 24 Samples.empty_db).
  reflexivity.
Defined.

(** X10. Logging a result for one service changes neither the history nor
    the uptime statistics of a service with another name, whether the write
    succeeds or fails. *)
Theorem log_check_other_service (f : Database.Faults) (result : Dict)
    (name type name' : PyVal) (d : Database.Db) :
  py_eq name name' = false ->
  let d' := (Database.log_check f result name type d).2 in
  (∀ f' limit, (Database.get_history f' name' limit d').1
               = (Database.get_history f' name' limit d).1)
  ∧ (∀ f' hours, (Database.get_uptime_stats f' name' hours d').1
                 = (Database.get_uptime_stats f' name' hours d).1).
Proof.
  intros Hne d'.
  destruct (log_check_table f result name type d) as [Hnow Hrows]. fold d' in Hnow, Hrows.
  split; intros f' x.
  - apply get_history_select. unfold Database.select_history.
    destruct Hrows as [->| ->]; [reflexivity|].
    rewrite List.filter_app. cbn [List.filter logged_row Database.col_service_name].
    rewrite Hne, app_nil_r. reflexivity.
  - apply get_uptime_stats_window. unfold Database.window_rows. rewrite Hnow.
    destruct Hrows as [->| ->]; [reflexivity|].
    rewrite List.filter_app. cbn [List.filter logged_row Database.col_service_name].
    rewrite Hne. cbn [andb]. apply app_nil_r.
Qed.

Lemma log_check_other_service_witness :
  let result := Checker.check_tcp_service Samples.world_refused
                  (PStr "localhost") (PInt 22) (PInt 5) in
  let d' := (Database.log_check Database.no_faults result (PStr "ssh") (PStr "tcp")
               Samples.db_7_of_25).2 in
  (Database.get_uptime_stats Database.no_faults (PStr "web") 24 d').1
  = (Database.get_uptime_stats Database.no_faults (PStr "web") 24 Samples.db_7_of_25).1.
Proof.
  apply (log_check_other_service Database.no_faults
           (Checker.check_tcp_service Samples.world_refused
              (PStr "localhost") (PInt 22) (PInt 5))
           (PStr "ssh") (PStr "tcp") (PStr "web") Samples.db_7_of_25).
  reflexivity.
Defined.

(** * Further properties of the monitoring loops *)

Section SynchronousLoop.
Import Database Monitor.
Context (check : nat -> Dict -> Res Dict) (alert_time : nat -> Z).

Lemma send_alert_db (t : Z) (name : PyVal) (type : string) (msg : PyVal) (st : State) :
  db (send_alert t name type msg st).2 = db st.
Proof. reflexivity. Qed.

Lemma update_cache_db (name : PyVal) (res : Dict) (st : State) :
  db (update_cache name res st).2 = db st.
Proof.
  unfold update_cache. state_unfold.
  destruct (metrics_key name) as [k|e]; [|reflexivity].
  destruct (cache_record k res (metrics st)); reflexivity.
Qed.

Lemma monitor_service_db (i : nat) (service : Dict) (st : State) :
  db (monitor_service check alert_time i service st).2 = db st.
Proof.
  unfold monitor_service.
  apply bind_keeps; [reflexivity|]. intros name s.
  apply bind_keeps; [reflexivity|]. intros res s'.
  apply bind_keeps; [intros s''; apply update_cache_db|]. intros _ s''.
  apply bind_keeps; [reflexivity|]. intros status s3.
  destruct (_ && _); reflexivity.
Qed.

Lemma monitor_services_db (ss : list Dict) : ∀ (i : nat) (st : State),
  db (monitor_services check alert_time i ss st).2 = db st.
Proof.
  induction ss as [|s ss IH]; intros i st; [reflexivity|].
  cbn [monitor_services].
  apply bind_keeps; [intros s'; apply monitor_service_db|]. intros _ s'. apply IH.
Qed.

(* One pass over one service whose result is returned and cached. *)
Lemma monitor_service_run (i : nat) (service res : Dict) (st : State)
    (k : string) (buf : list Dict) (status : PyVal) :
  service !! "name" = Some (PStr k) ->
  check i service = Ret res ->
  metrics st !! k = Some buf ->
  res !! "status" = Some status ->
  let raised := py_eq status (PStr "down")
                && py_truthy (dict_get service "alert_on_failure") in
  let alert : Dict :=
    {[ "timestamp" := PDatetime (alert_time i);
       "message" := PStr ("ALERT: " +:+ k +:+ " is DOWN. Detail: "
          +:+ py_str (py_or (dict_get res "error_message") (dict_get res "error"))) ]} in
  monitor_service check alert_time i service st
  = (Ret tt,
     mkState (services st) (db st) (<[k := cache_append buf res]> (metrics st))
       (if raised then alerts st ++ [alert] else alerts st)).
Proof.
  intros Hname Hcheck Hbuf Hstatus raised alert.
  unfold monitor_service, update_cache, send_alert, dict_item, cache_record.
  state_unfold. rewrite Hname, Hcheck. cbn [metrics_key]. rewrite Hbuf, Hstatus.
  fold raised. destruct raised; reflexivity.
Qed.

End SynchronousLoop.

(** X14. In the synchronous loop, a returned result raises an alert
    exactly when its status is down and [alert_on_failure] of the service is
    truthy: then one alert is appended, of kind DOWN, with the name of the
    service and [error_message or error] of the result as detail; in every
    other case the alerts are as before. The result is appended to the cache
    either way, and the store is not touched. *)
Theorem monitor_service_alert_rule (check : nat -> Dict -> Res Dict) (alert_time : nat -> Z)
    (i : nat) (service res : Dict) (st : Monitor.State) (k : string)
    (buf : list Dict) (status : PyVal) :
  service !! "name" = Some (PStr k) ->
  check i service = Ret res ->
  Monitor.metrics st !! k = Some buf ->
  res !! "status" = Some status ->
  ∃ st', Monitor.monitor_service check alert_time i service st = (Ret tt, st')
         ∧ Monitor.db st' = Monitor.db st
         ∧ Monitor.metrics st' !! k = Some (Monitor.cache_append buf res)
         ∧ Monitor.alerts st'
           = if py_eq status (PStr "down")
                && py_truthy (dict_get service "alert_on_failure")
             then Monitor.alerts st ++
                    [ {[ "timestamp" := PDatetime (alert_time i);
                         "message" := PStr ("ALERT: " +:+ k +:+ " is DOWN. Detail: "
                            +:+ Monitor.py_str (py_or (dict_get res "error_message")
                                                      (dict_get res "error"))) ]} ]
             else Monitor.alerts st.
Proof.
  intros Hname Hcheck Hbuf Hstatus.
  rewrite (monitor_service_run check alert_time i service res st k buf status
             Hname Hcheck Hbuf Hstatus).
  eexists. split; [reflexivity|]. cbn.
  split; [reflexivity|]. split; [apply lookup_insert_eq | reflexivity].
Qed.

Lemma monitor_service_alert_rule_witness :
  ∃ st', Monitor.monitor_service
           (fun _ s => Checker.perform_check Samples.world_refused s) (fun _ => 0)
           0 Samples.tcp_service Samples.tcp_state = (Ret tt, st')
         ∧ length (Monitor.alerts st') = 1%nat.
Proof.
  destruct (monitor_service_alert_rule
              (fun _ s => Checker.perform_check Samples.world_refused s) (fun _ => 0)
              0 Samples.tcp_service
              (Checker.check_tcp_service Samples.world_refused
                 (PStr "localhost") (PInt 22) (PInt 5))
              Samples.tcp_state "ssh" [] (PStr "down")
              eq_refl eq_refl eq_refl eq_refl) as (st' & Hrun & _ & _ & Hal).
  exists st'. split; [exact Hrun|]. rewrite Hal. reflexivity.
Defined.

(** X15. The synchronous loop never writes to the result store: whatever
    the checks return and however many passes it makes, the store is as it
    was; its results live in the cache only. *)
Theorem monitor_continuously_keeps_store (check : nat -> nat -> Dict -> Res Dict)
    (alert_time : nat -> nat -> Z) (n k : nat) (st : Monitor.State) :
  Monitor.db (Monitor.monitor_continuously check alert_time k n st).2 = Monitor.db st.
Proof.
  revert k st. induction n as [|n IH]; intros k st; [reflexivity|].
  cbn [Monitor.monitor_continuously].
  apply bind_keeps; [|intros _ s; apply IH].
  intros s. unfold Monitor.monitor_cycle.
  apply bind_keeps; [reflexivity|]. intros ss s'. apply monitor_services_db.
Qed.



(** X17. The constructor gives every configured service an empty buffer
    under its name and creates no other buffer, and it raises when a
    service has no [name]. *)
Theorem init_metrics_buffers (ss : list Dict) :
  (∀ s, s ∈ ss -> s !! "name" = None -> ¬ is_Ret (Monitor.init_metrics ss))
  ∧ ∀ m, Monitor.init_metrics ss = Ret m ->
         (∀ s k, s ∈ ss -> s !! "name" = Some (PStr k) -> m !! k = Some [])
         ∧ (∀ k buf, m !! k = Some buf ->
                     buf = [] ∧ ∃ s, s ∈ ss ∧ s !! "name" = Some (PStr k)).
Proof.
  induction ss as [|s0 ss [IHraise IHret]].
  - split; [intros s Hs; now apply elem_of_nil in Hs|].
    cbn. intros m [= <-]. split; [intros s k Hs; now apply elem_of_nil in Hs|].
    intros k buf H. now rewrite lookup_empty in H.
  - split.
    + intros s Hs Hnone. cbn [Monitor.init_metrics]. res_unfold. unfold dict_item.
      apply elem_of_cons in Hs as [->|Hs].
      * rewrite Hnone. exact (fun H => H).
      * destruct (s0 !! "name") as [v|]; [|exact (fun H => H)].
        destruct (Monitor.metrics_key v); [|exact (fun H => H)].
        specialize (IHraise s Hs Hnone).
        destruct (Monitor.init_metrics ss); [|exact (fun H => H)].
        destruct IHraise. exact I.
    + intros m. cbn [Monitor.init_metrics]. res_unfold. unfold dict_item.
      destruct (s0 !! "name") as [v|] eqn:Hv; [|discriminate].
      destruct v as [| | | |k0| |]; cbn [Monitor.metrics_key]; try discriminate.
      destruct (Monitor.init_metrics ss) as [m0|]; [|discriminate].
      intros [= <-]. destruct (IHret m0 eq_refl) as [Hall Honly]. split.
      * intros s k Hs Hk. apply elem_of_cons in Hs as [->|Hs].
        -- rewrite Hv in Hk. injection Hk as ->. apply lookup_insert_eq.
        -- destruct (decide (k0 = k)) as [->|Hne];
             [apply lookup_insert_eq | rewrite lookup_insert_ne by exact Hne; eauto].
      * intros k buf. destruct (decide (k0 = k)) as [->|Hne].
        -- rewrite lookup_insert_eq. intros [= <-]. split; [reflexivity|].
           exists s0. split; [constructor | exact Hv].
        -- rewrite lookup_insert_ne by exact Hne. intros H.
           destruct (Honly k buf H) as [-> (s & Hs & Hk)]. split; [reflexivity|].
           exists s. split; [now constructor | exact Hk].
Qed.

Lemma init_metrics_buffers_witness :
  ∃ m, Monitor.init_metrics [Samples.tcp_service; Samples.dns_service] = Ret m
       ∧ m !! "ssh" = Some [] ∧ m !! "resolver" = Some [].
Proof.
  eexists. split; [reflexivity|].
  destruct (init_metrics_buffers [Samples.tcp_service; Samples.dns_service]) as [_ H].
  destruct (H _ eq_refl) as [Hall _]. split.
  - apply (Hall Samples.tcp_service); [constructor | reflexivity].
  - apply (Hall Samples.dns_service); [constructor; constructor | reflexivity].
Defined.

(** * Properties of the constructor *)

Section Construction.
Import Database Monitor Setup.

Lemma load_service_config_unusable (fs : Files) (path : string) :
  config_unusable fs path -> load_service_config fs path = ConfigObject (Some []).
Proof.
  unfold config_unusable, load_service_config.
  destruct (file_exists fs path); cbn [negb].
  - destruct (json_load fs path); [intros H; destruct H; exact I | reflexivity].
  - destruct (file_exists fs cwd_config); [|reflexivity].
    destruct (json_load fs cwd_config); [intros H; destruct H; exact I | reflexivity].
Qed.

Lemma _init_db_run (f : Faults) (d : Db) :
  connect_fault f = None -> execute_fault f = None -> commit_fault f = None ->
  _init_db f d = (Ret tt, d).
Proof.
  intros Hc He Hm. unfold _init_db, _get_connection, close, fault. state_unfold.
  rewrite Hc, He, Hm. cbn. now rewrite db_eta.
Qed.

End Construction.

(** X19. With no configuration to read (no file at the configured path
    nor under the working directory, or a file that cannot be loaded), the
    constructor does not fail: it builds a checker with no service, an empty
    cache and no alert over the store as it is on disk, and every cycle of
    either loop then returns at once and changes nothing. *)
Theorem new_checker_without_config (fs : Setup.Files) (package_config : string)
    (config_file : option string) (f : Database.Faults) (d : Database.Db) :
  config_unusable fs (Setup._resolve_config_path package_config config_file) ->
  Database.connect_fault f = None ->
  Database.execute_fault f = None ->
  Database.commit_fault f = None ->
  Setup.mkdir_fault fs = None ->
  ∃ st, Setup.new_checker fs package_config config_file f d = Ret st
        ∧ st = Monitor.mkState [] d ∅ []
        ∧ (∀ W F, Monitor.run_cycle W F st = (Ret tt, st))
        ∧ (∀ check alert_time, Monitor.monitor_cycle check alert_time st = (Ret tt, st)).
Proof.
  intros Hcfg Hc He Hm Hdir. unfold Setup.new_checker.
  rewrite (load_service_config_unusable _ _ Hcfg), (_init_db_run f d Hc He Hm), Hdir.
  eexists. split; [reflexivity|]. split; [reflexivity|]. split; reflexivity.
Qed.

Lemma new_checker_without_config_witness :
  Setup.new_checker Samples.no_files "services.json" None Database.no_faults
    Samples.empty_db
  = Ret (Monitor.mkState [] Samples.empty_db ∅ []).
Proof.
  destruct (new_checker_without_config Samples.no_files "services.json" None
              Database.no_faults Samples.empty_db I eq_refl eq_refl eq_refl eq_refl)
    as (st & Hrun & -> & _).
  exact Hrun.
Defined.

(** * Latency of failed checks *)

Section Latency.
Import Database.

Lemma get_uptime_stats_avg (name : PyVal) (hours : Z) (d : Db) :
  ∃ st, get_uptime_stats no_faults name hours d = (Ret st, d)
        ∧ avg_latency st
          = py_round2 (default 0%Q
              (num_of (py_or (sql_avg_latency (window_rows name hours d)) (PInt 0)))).
Proof.
  unfold get_uptime_stats, _get_connection, close, fault, no_faults. state_unfold.
  cbn [connect_fault execute_fault].
  assert (Hw : ∀ c, window_rows name hours (mkDb (service_checks d) c (db_now d))
                    = window_rows name hours d) by reflexivity.
  rewrite Hw. cbn [service_checks open_connections db_now Nat.pred]. rewrite db_eta.
  eexists. split; reflexivity.
Qed.

End Latency.

(** X26. A result without a response time, such as that of a failed DNS
    or API check, is stored with a NULL latency and never changes the
    average latency reported for its service. *)
Theorem log_check_without_latency (f : Database.Faults) (result : Dict)
    (name type : PyVal) (hours : Z) (d : Database.Db) :
  dict_get result "response_time_ms" = PNone ->
  let d' := (Database.log_check f result name type d).2 in
  ∃ st st', Database.get_uptime_stats Database.no_faults name hours d = (Ret st, d)
    ∧ Database.get_uptime_stats Database.no_faults name hours d' = (Ret st', d')
    ∧ Database.avg_latency st' = Database.avg_latency st.
Proof.
  intros Hrt d'.
  destruct (get_uptime_stats_avg name hours d) as (st & Hrun & Havg).
  destruct (get_uptime_stats_avg name hours d') as (st' & Hrun' & Havg').
  exists st, st'. split; [exact Hrun|]. split; [exact Hrun'|].
  rewrite Havg, Havg'. do 4 f_equal.
  destruct (log_check_table f result name type d) as [Hnow [Hrows|Hrows]];
    fold d' in Hnow, Hrows; unfold Database.window_rows; rewrite Hnow, Hrows;
    [reflexivity|].
  rewrite List.filter_app. cbn [List.filter].
  destruct (_ && _); [|now rewrite app_nil_r].
  unfold Database.sql_avg_latency. rewrite omap_app.
  cbn [omap list_omap logged_row Database.col_response_time_ms]. rewrite Hrt.
  cbn [num_of]. now rewrite app_nil_r.
Qed.

Lemma log_check_without_latency_witness :
  let result := Checker.check_dns_resolution Samples.world_refused
                  (PStr "example.com") None in
  dict_get result "status" = PStr "down"
  ∧ let d' := (Database.log_check Database.no_faults result (PStr "web") (PStr "dns")
                 Samples.db_7_of_25).2 in
    ∃ st st',
      Database.get_uptime_stats Database.no_faults (PStr "web") 24 Samples.db_7_of_25
      = (Ret st, Samples.db_7_of_25)
      ∧ Database.get_uptime_stats Database.no_faults (PStr "web") 24 d' = (Ret st', d')
      ∧ Database.avg_latency st' = Database.avg_latency st.
Proof.
  split; [vm_compute; reflexivity|].
  apply (log_check_without_latency Database.no_faults
           (Checker.check_dns_resolution Samples.world_refused (PStr "example.com") None)
           (PStr "web") (PStr "dns") 24 Samples.db_7_of_25).
  vm_compute. reflexivity.
Defined.

(** * The uptime window of a logged result *)

(** X23. In the 24-hour window the program asks for, a logged result
    counts in the uptime statistics of its service exactly when its
    timestamp lies in the window: an accepted [log_check] of a result
    stamped at or after the start of the window raises [total_checks] by
    one, and one stamped before it leaves [total_checks] as it was. *)
Theorem log_check_then_get_uptime_stats (f : Database.Faults) (result : Dict)
    (name type : PyVal) (t : Z) (d : Database.Db) :
  log_accepted f result name type = true ->
  dict_get result "timestamp" = PDatetime t ->
  let d' := (Database.log_check f result name type d).2 in
  ∃ st st', Database.get_uptime_stats Database.no_faults name 24 d = (Ret st, d)
    ∧ Database.get_uptime_stats Database.no_faults name 24 d' = (Ret st', d')
    ∧ Database.total_checks st'
      = if Database.db_now d - 24 * 3600 <=? t
        then Database.total_checks st + 1 else Database.total_checks st.
Proof.
  intros Hacc Hts d'.
  destruct (get_uptime_stats_total name 24 d) as (st & Hrun & Htot).
  destruct (get_uptime_stats_total name 24 d') as (st' & Hrun' & Htot').
  exists st, st'. split; [exact Hrun|]. split; [exact Hrun'|].
  rewrite Htot, Htot'. subst d'. rewrite (log_check_accepted _ _ _ _ _ Hacc).
  unfold Database.window_rows. cbn [snd Database.service_checks Database.db_now].
  rewrite List.filter_app, length_app.
  cbn [List.filter logged_row Database.col_service_name Database.col_timestamp].
  rewrite py_eq_refl, Hts. cbn [andb Database.in_window].
  destruct (Database.db_now d - 24 * 3600 <=? t); cbn [length]; lia.
Qed.

Lemma log_check_then_get_uptime_stats_witness :
  let result := Bound.check_tcp_service Samples.world_refused
                  (PStr "localhost") (PInt 22) (PInt 5) in
  let d' := (Database.log_check Database.no_faults result (PStr "ssh") (PStr "tcp")
               Samples.empty_db).2 in
  ∃ st', Database.get_uptime_stats Database.no_faults (PStr "ssh") 24 d' = (Ret st', d')
         ∧ Database.total_checks st' = 1.
Proof.
  destruct (log_check_then_get_uptime_stats Database.no_faults
              (Bound.check_tcp_service Samples.world_refused
                 (PStr "localhost") (PInt 22) (PInt 5))
              (PStr "ssh") (PStr "tcp") 1700000000 Samples.empty_db)
    as (st & st' & Hrun & Hrun' & Htot).
  - vm_compute. reflexivity.
  - vm_compute. reflexivity.
  - exists st'. split; [exact Hrun'|]. rewrite Htot.
    change (Database.db_now Samples.empty_db - 24 * 3600 <=? 1700000000) with true.
    cbn iota. apply (f_equal fst) in Hrun. cbn in Hrun.
    injection Hrun as <-. reflexivity.
Defined.

(** * Further properties of the bound class *)

(** X1. An HTTP check whose request is answered records the status code
    and whether the URL starts with https, and is up with no error message
    when the code equals [expected_status], and down with the message
    "Unexpected status: <code>" when it differs. *)
Theorem check_http_service_response (w : World) (u : string) (timeout expected : PyVal)
    (resp : Response) :
  http_get w (PStr u) timeout = Ret resp ->
  let r := Checker.check_http_service w (PStr u) timeout expected in
  dict_get r "status_code" = PInt (status_code resp)
  ∧ dict_get r "ssl_valid" = PBool (String.prefix "https" u)
  ∧ (if py_eq (PInt (status_code resp)) expected
     then dict_get r "status" = PStr "up" ∧ dict_get r "error_message" = PNone
     else dict_get r "status" = PStr "down"
          ∧ dict_get r "error_message"
            = PStr ("Unexpected status: " +:+ pretty (status_code resp))).
Proof.
  intros Hget. cbn zeta. unfold Checker.check_http_service. res_unfold.
  rewrite Hget. cbn [py_startswith].
  destruct (py_eq (PInt (status_code resp)) expected); cbn [negb];
    repeat split; dict_solve.
Qed.

Lemma check_http_service_response_witness :
  let r := Checker.check_http_service Samples.world_connected
             (PStr "https://example.com") (PInt 10) (PInt 404) in
  dict_get r "status_code" = PInt 200
  ∧ dict_get r "status" = PStr "down"
  ∧ dict_get r "error_message" = PStr "Unexpected status: 200".
Proof.
  destruct (check_http_service_response Samples.world_connected "https://example.com"
              (PInt 10) (PInt 404) (mkResponse 200 (Ret "{'ok': True}")) eq_refl)
    as (Hcode & _ & Hst).
  split; [exact Hcode|]. exact Hst.
Defined.

(** X25. A TCP check whose connection raises returns exactly a timestamp,
    the status down and the text of the exception under [error_message]: no
    [response_time_ms], and a timeout is reported with its own text like any
    other failure. A connection that opens is reported up even when closing
    it raises; the text of that failure is then under [error_message]. *)
Theorem check_tcp_service_failure (w : World) (host port timeout : PyVal) (e : PyExc) :
  let r := Bound.check_tcp_service w host port timeout in
  (tcp_open w host port timeout = Raise e ->
   r = {[ "timestamp" := PDatetime (now w);
          "status" := PStr "down";
          "error_message" := PStr (exc_str e) ]})
  ∧ (tcp_open w host port timeout = Ret tt -> tcp_wait_closed w = Raise e ->
     dict_get r "status" = PStr "up"
     ∧ dict_get r "error_message" = PStr (exc_str e)).
Proof.
  cbn zeta. split.
  - apply check_tcp_service_refused.
  - intros Hopen Hclose. unfold Bound.check_tcp_service. rewrite Hopen, Hclose.
    split; dict_solve.
Qed.

Lemma check_tcp_service_failure_witness :
  Bound.check_tcp_service Samples.world_refused (PStr "localhost") (PInt 22) (PInt 5)
  = {[ "timestamp" := PDatetime 1700000000;
       "status" := PStr "down";
       "error_message" := PStr "[Errno 111] Connection refused" ]}.
Proof.
  exact (proj1 (check_tcp_service_failure Samples.world_refused
                  (PStr "localhost") (PInt 22) (PInt 5) Samples.unreachable) eq_refl).
Defined.

(** X12. A pass of the loop stops at the first service on which
    [perform_check] raises, such as a definition without its target key: the
    exception leaves the pass, no later service is checked and the dashboard
    is not redrawn, while the results and alerts of the services before it
    stay. *)
Theorem monitor_cycle_aborts_on_raising_check (W : nat -> World) (alert_time : nat -> Z)
    (pre post : list Dict) (s : Dict) (name : PyVal) (e : PyExc) (st st1 : Bound.State) :
  Bound.services st = pre ++ s :: post ->
  Bound.monitor_services W alert_time 0 pre st = (Ret tt, st1) ->
  s !! "name" = Some name ->
  Bound.perform_check (W (length pre)) s = Raise e ->
  Bound.monitor_cycle W alert_time st = (Raise e, st1).
Proof.
  intros Hss Hpre Hname Hcheck. unfold Bound.monitor_cycle. state_unfold.
  rewrite Hss, monitor_services_app, Hpre. cbn [Bound.monitor_services Nat.add].
  state_unfold.
  now rewrite (monitor_service_raised W alert_time (length pre) s st1 name e Hname Hcheck).
Qed.

Lemma monitor_cycle_aborts_on_raising_check_witness :
  ∃ st1, Bound.monitor_cycle (fun _ => Samples.world_refused) (fun _ => 1700000000)
           Samples.mixed_checker
         = (Raise (mkExc KeyError "'host'"), st1)
         ∧ length (Bound.alerts st1) = 1%nat
         ∧ Bound.metrics st1 !! "resolver" = Some [].
Proof.
  eexists. split.
  - apply (monitor_cycle_aborts_on_raising_check
             (fun _ => Samples.world_refused) (fun _ => 1700000000)
             [Samples.tcp_service] [] Samples.dns_service_domain (PStr "resolver")
             (mkExc KeyError "'host'") Samples.mixed_checker);
      [reflexivity | vm_compute; reflexivity | reflexivity | reflexivity].
  - split; reflexivity.
Defined.

(** X18. What the dispatcher does with a service the configuration wizard
    wrote: for the type api the wizard asks for no URL, and [perform_check]
    raises [KeyError('url')]; for the type http the service carries its URL
    and expected status, and [perform_check] returns the coroutine of
    [check_http_service], not a result; for every other type, tcp and dns
    among them, [perform_check] returns a result. The wizard never sets
    [alert_on_failure], [expected_ip] or [timeout]. *)
Theorem wizard_service_dispatch (prompt : string -> string) (py_int : string -> Res Z)
    (service : Dict) :
  Wizard.add_service prompt py_int = Ret service ->
  (∀ w, let stype := prompt "Type (http, tcp, dns, api)" in
        if String.eqb stype "api"
        then Bound.perform_check w service = Raise (mkExc KeyError "'url'")
        else if String.eqb stype "http"
        then ∃ status, py_int (prompt "Expected Status") = Ret status
               ∧ Bound.perform_check w service
                 = Ret (Bound.Coroutine (PStr (prompt "URL")) (PInt 10)
                          (PInt status) (PInt 200))
        else ∃ r, Bound.perform_check w service = Ret (Bound.Result r))
  ∧ service !! "alert_on_failure" = None
  ∧ service !! "expected_ip" = None
  ∧ service !! "timeout" = None.
Proof.
  unfold Wizard.add_service. res_unfold.
  set (stype := prompt "Type (http, tcp, dns, api)").
  destruct (String.eqb stype "http") eqn:Hhttp.
  { apply String.eqb_eq in Hhttp.
    destruct (py_int (prompt "Expected Status")) as [status|]; [|discriminate].
    destruct (py_int (prompt "Check Interval (seconds)")) as [n|]; [|discriminate].
    intros [= <-]. rewrite Hhttp. split; [|repeat split; dict_solve].
    intros w. cbn [String.eqb Ascii.eqb Bool.eqb].
    exists status. split; [reflexivity|].
    unfold Bound.perform_check, dict_get_default, dict_item. simplify_map_eq.
    cbn [default py_eq String.eqb Ascii.eqb Bool.eqb]. res_unfold. reflexivity. }
  destruct (String.eqb stype "tcp") eqn:Htcp.
  { apply String.eqb_eq in Htcp.
    destruct (py_int (prompt "Port")) as [port|]; [|discriminate].
    destruct (py_int (prompt "Check Interval (seconds)")) as [n|]; [|discriminate].
    intros [= <-]. rewrite Htcp. split; [|repeat split; dict_solve].
    intros w. cbn [String.eqb Ascii.eqb Bool.eqb].
    unfold Bound.perform_check, dict_get_default, dict_item. simplify_map_eq.
    cbn [default py_eq String.eqb Ascii.eqb Bool.eqb]. res_unfold. eauto. }
  destruct (String.eqb stype "dns") eqn:Hdns.
  { apply String.eqb_eq in Hdns.
    destruct (py_int (prompt "Check Interval (seconds)")) as [n|]; [|discriminate].
    intros [= <-]. rewrite Hdns. split; [|repeat split; dict_solve].
    intros w. cbn [String.eqb Ascii.eqb Bool.eqb].
    unfold Bound.perform_check, dict_get_default, dict_item. simplify_map_eq.
    cbn [default py_eq String.eqb Ascii.eqb Bool.eqb]. res_unfold. eauto. }
  destruct (py_int (prompt "Check Interval (seconds)")) as [n|]; [|discriminate].
  intros [= <-]. split; [|repeat split; dict_solve].
  intros w. cbn zeta. unfold Bound.perform_check, dict_get_default, dict_item.
  simplify_map_eq. cbn [default py_eq]. rewrite Hhttp, Htcp, Hdns.
  destruct (String.eqb stype "api"); res_unfold; eauto.
Qed.

Lemma wizard_service_dispatch_witness :
  ∃ service, Wizard.add_service Samples.api_answers Samples.int_60 = Ret service
             ∧ dict_get service "type" = PStr "api"
             ∧ Bound.perform_check Samples.world_connected service
               = Raise (mkExc KeyError "'url'").
Proof.
  eexists. split; [reflexivity|]. split; [reflexivity|].
  refine (proj1 (wizard_service_dispatch Samples.api_answers Samples.int_60 _ eq_refl)
            Samples.world_connected).
Defined.

(** ** The dashboard *)

Section BoundDashboard.
Import Bound.

Lemma count_successful_status (history : list Returned) :
  Forall has_status history ->
  count_successful history
  = Ret (Z.of_nat (length (List.filter is_up_result history))).
Proof.
  induction 1 as [|res history (r & st & -> & Hst) _ IH]; [reflexivity|].
  cbn [count_successful item List.filter is_up_result]. unfold dict_item, dict_get.
  rewrite Hst, IH. res_unfold. cbn [default]. unfold id.
  destruct (py_eq st (PStr "up")); cbn [length]; apply (f_equal Ret); lia.
Qed.

Lemma calculate_uptime_status (m : gmap string (list Returned)) (k : string) :
  Forall has_status (default [] (m !! k)) ->
  default [] (m !! k) ≠ [] ->
  calculate_uptime m k = Ret (uptime_of (default [] (m !! k))).
Proof.
  intros Hall Hne. unfold calculate_uptime.
  destruct (default [] (m !! k)) as [|res history] eqn:Hh; [done|].
  rewrite (count_successful_status _ Hall). reflexivity.
Qed.

Lemma dashboard_row_presentable (m : gmap string (list Returned)) (service : Dict) :
  presentable m service ->
  ∃ row, dashboard_row m service = Ret row ∧ length row = 6%nat.
Proof.
  intros (k & Hname & Hall & Hlast). unfold dashboard_row, dict_item.
  rewrite Hname. res_unfold. cbn [Monitor.metrics_key].
  destruct (last (default [] (m !! k))) as [[r|]|] eqn:Hl; [|done|eauto].
  destruct Hlast as [t Ht].
  assert (Hin : Result r ∈ default [] (m !! k)) by (eapply last_Some_elem_of; eauto).
  destruct (proj1 (Forall_forall _ _) Hall _ Hin) as (r' & st & [= <-] & Hst).
  cbn [item get]. unfold dict_item. rewrite Hst, Ht.
  rewrite calculate_uptime_status;
    [|exact Hall|intros Hnil; rewrite Hnil in Hl; discriminate Hl].
  cbn [strftime]. eauto.
Qed.

End BoundDashboard.

(** X20. The row the dashboard draws for a service, from the cache alone:
    PENDING while the service has no cached result; otherwise UP when the
    status of the last cached result is up and DOWN for any other status,
    the latency of that result (0 when it has none, as after a failed TCP
    check), the share of up results among the cached ones and the clock time
    of the result. A last result without a timestamp, such as the one of an
    unknown type, raises [KeyError('timestamp')]. *)
Theorem dashboard_row_cells (m : gmap string (list Bound.Returned)) (service : Dict)
    (k : string) :
  service !! "name" = Some (PStr k) ->
  let history := default [] (m !! k) in
  Forall has_status history ->
  Bound.dashboard_row m service
  = match last history with
    | None =>
        Ret [ Bound.CValue (PStr k); Bound.CValue (dict_get service "type");
              Bound.CPending; Bound.CDash; Bound.CDash; Bound.CDash ]
    | Some (Bound.Result r) =>
        match r !! "timestamp" with
        | Some (PDatetime t) =>
            Ret [ Bound.CValue (PStr k); Bound.CValue (dict_get service "type");
                  (if py_eq (dict_get r "status") (PStr "up")
                   then Bound.CUp else Bound.CDown);
                  Bound.CMillis (dict_get_default r "response_time_ms" (PInt 0));
                  Bound.CPercent (uptime_of history);
                  Bound.CClock t ]
        | Some _ => Raise (mkExc AttributeError "object has no attribute 'strftime'")
        | None => Raise (mkExc KeyError "'timestamp'")
        end
    | Some (Bound.Coroutine _ _ _ _) =>
        Raise (mkExc TypeError "'coroutine' object is not subscriptable")
    end.
Proof.
  intros Hname history Hall. unfold Bound.dashboard_row, dict_item.
  rewrite Hname. res_unfold. cbn [Monitor.metrics_key]. fold history.
  destruct (last history) as [[r|]|] eqn:Hl; [|reflexivity|reflexivity].
  assert (Hin : Bound.Result r ∈ history) by (eapply last_Some_elem_of; eauto).
  destruct (proj1 (Forall_forall _ _) Hall _ Hin) as (r' & st & [= <-] & Hst).
  cbn [Bound.item Bound.get]. unfold dict_item, dict_get. rewrite Hst. cbn [default].
  rewrite calculate_uptime_status;
    [|exact Hall|intros Hnil; fold history in Hnil; rewrite Hnil in Hl; discriminate Hl].
  fold history.
  destruct (r !! "timestamp") as [[]|]; reflexivity.
Qed.

Lemma dashboard_row_cells_witness :
  Bound.dashboard_row {[ "files" := [Bound.Result unknown_result] ]} Samples.ftp_service
  = Raise (mkExc KeyError "'timestamp'").
Proof.
  rewrite (dashboard_row_cells {[ "files" := [Bound.Result unknown_result] ]}
             Samples.ftp_service "files" eq_refl).
  - reflexivity.
  - constructor; [|constructor]. exists unknown_result, (PStr "unknown").
    split; reflexivity.
Defined.

(** X21. When every service has a name, every cached result a status and
    the last cached result of each service a datetime timestamp, the
    dashboard is drawn without raising: one row of six cells per service, in
    the order of the configuration, and nothing of the checker changes. *)
Theorem dashboard_one_row_per_service (st : Bound.State) :
  Forall (presentable (Bound.metrics st)) (Bound.services st) ->
  ∃ rows, Bound._generate_dashboard_table st = (Ret rows, st)
          ∧ length rows = length (Bound.services st)
          ∧ Forall (fun row => length row = 6%nat) rows.
Proof.
  unfold Bound._generate_dashboard_table.
  induction 1 as [|s ss Hs _ (rows & Hrows & Hlen & Hsix)].
  - exists []. repeat split. constructor.
  - destruct (dashboard_row_presentable _ _ Hs) as (row & Hrow & Hrl).
    exists (row :: rows). cbn [Bound.dashboard_rows]. res_unfold.
    apply (f_equal fst) in Hrows. cbn [fst] in Hrows. rewrite Hrow, Hrows.
    split; [reflexivity|]. split; [cbn [length]; now rewrite Hlen|].
    now constructor.
Qed.

Lemma dashboard_one_row_per_service_witness :
  ∃ rows, Bound._generate_dashboard_table Samples.tcp_checker_down
          = (Ret rows, Samples.tcp_checker_down)
          ∧ length rows = 1%nat.
Proof.
  destruct (dashboard_one_row_per_service Samples.tcp_checker_down)
    as (rows & Hrun & Hlen & _).
  - constructor; [|constructor]. exists "ssh". split; [reflexivity|]. split.
    + constructor; [|constructor]. eexists _, _. split; reflexivity.
    + eexists. reflexivity.
  - exists rows. split; [exact Hrun | exact Hlen].
Defined.
